(** * salt/modules/win_status.py: the Windows minion status module

    A shallow embedding of the status module and the properties its
    specification states about it.

    The module is Python 2 code (salt 2015.x): [/] on two ints is floor
    division, [str] is a byte string and [unicode] a separate type,
    [subprocess.check_output] returns a [str].  Python ints are [Z], byte
    strings are [string], dicts are [gmap], sets are [gset].  The host
    (command output, WMI records, disk counters, clock, configuration, name
    resolution) is a record [OS] that every function reads; what a function
    writes (log records, fired events) is threaded through a small
    state-and-exception monad. *)

From Stdlib Require Import ZArith NArith Floats Ascii String List Lia DecimalString DecimalPos.
From stdpp Require Import gmap strings.

Local Open Scope string_scope.
Local Open Scope Z_scope.

(** ** Python values and exceptions *)

(** The exception classes that occur; all of them derive from [Exception].
    [WmiError] stands for whatever the WMI/COM layer raises ([x_wmi],
    [com_error]), tagged with its code. *)
Inductive exn : Type :=
| ValueError
| IndexError
| AttributeError
| TypeError
| OverflowError
| CalledProcessError (returncode : Z)
| OSError
| WindowsError
| WmiError (code : Z).

Inductive outcome (A : Type) : Type :=
| Return (a : A)
| Raise (e : exn).
Arguments Return {A} a.
Arguments Raise {A} e.

(** A [unicode] object: its code points. *)
Definition unicode : Type := list N.

(** A string-like Python value: [str] or [unicode]. *)
Inductive pystr : Type :=
| Str (s : string)
| Uni (u : unicode).

(** A loosely typed value as the configuration store or a WMI property
    hands it over. *)
Inductive pyval : Type :=
| PNone
| PStr (s : string)
| PInt (z : Z).

(** ** String primitives of Python, on byte strings *)

Module Py.

Definition is_digit (c : ascii) : bool :=
  let n := nat_of_ascii c in (48 <=? n)%nat && (n <=? 57)%nat.

(** The characters [str.split()], [str.strip()] and [int()] treat as
    white space: space, \t, \n, \v, \f, \r. *)
Definition is_space (c : ascii) : bool :=
  let n := nat_of_ascii c in (n =? 32)%nat || ((9 <=? n)%nat && (n <=? 13)%nat).

Definition is_empty (s : string) : bool :=
  match s with EmptyString => true | String _ _ => false end.

(** [sub in s] *)
Definition contains (sub s : string) : bool :=
  match String.index 0 sub s with Some _ => true | None => false end.

(** [s.index(sub, start)]: ValueError when there is no occurrence at or
    after [start]. *)
Definition index (sub s : string) (start : nat) : outcome nat :=
  match String.index start sub s with
  | Some i => Return i
  | None => Raise ValueError
  end.

(** [s[a:b]] for non-negative [a], [b]; empty when [b <= a]. *)
Definition slice (s : string) (a b : nat) : string := substring a (b - a) s.

(** [s[a:]] for non-negative [a]. *)
Fixpoint slice_from (s : string) (a : nat) : string :=
  match a, s with
  | O, _ => s
  | S _, EmptyString => EmptyString
  | S a', String _ s' => slice_from s' a'
  end.

(** [l[i]] on a list. *)
Definition item {A} (l : list A) (i : nat) : outcome A :=
  match nth_error l i with
  | Some x => Return x
  | None => Raise IndexError
  end.

(** [s.split(sep)] for a non-empty separator: the pieces between the
    non-overlapping occurrences of [sep], scanned from the left.
    [split_aux] returns the piece in progress and the pieces after it;
    [skip] counts the characters of a separator still to be passed. *)
Fixpoint split_aux (sep : string) (skip : nat) (s : string) : string * list string :=
  match s with
  | EmptyString => (EmptyString, [])
  | String c s' =>
      match skip with
      | S k => split_aux sep k s'
      | O =>
          if String.prefix sep s
          then (EmptyString,
                let '(p, ps) := split_aux sep (String.length sep - 1) s' in p :: ps)
          else let '(p, ps) := split_aux sep 0 s' in (String c p, ps)
      end
  end.

Definition split (s sep : string) : list string :=
  let '(p, ps) := split_aux sep 0 s in p :: ps.

(** [s.split()]: the maximal runs of non-space characters. *)
Fixpoint split_ws_aux (s : string) : string * list string :=
  match s with
  | EmptyString => (EmptyString, [])
  | String c s' =>
      let '(w, ws) := split_ws_aux s' in
      if is_space c
      then (EmptyString, if is_empty w then ws else w :: ws)
      else (String c w, ws)
  end.

Definition split_ws (s : string) : list string :=
  let '(w, ws) := split_ws_aux s in if is_empty w then ws else w :: ws.

(** [s.rsplit(sep, 1)] for a one-character separator: cut at the last
    occurrence, or the whole string when there is none. *)
Fixpoint rsplit1_aux (sep : ascii) (s : string) : option (string * string) :=
  match s with
  | EmptyString => None
  | String c s' =>
      match rsplit1_aux sep s' with
      | Some (a, b) => Some (String c a, b)
      | None => if Ascii.eqb c sep then Some (EmptyString, s') else None
      end
  end.

Definition rsplit1 (s : string) (sep : ascii) : list string :=
  match rsplit1_aux sep s with
  | Some (a, b) => [a; b]
  | None => [s]
  end.

(** [a, b = l]: unpacking into two names. *)
Definition unpack2 {A} (l : list A) : outcome (A * A) :=
  match l with
  | [a; b] => Return (a, b)
  | _ => Raise ValueError
  end.

(** [s.strip()] *)
Fixpoint lstrip (s : string) : string :=
  match s with
  | String c s' => if is_space c then lstrip s' else s
  | EmptyString => s
  end.

Fixpoint rstrip (s : string) : string :=
  match s with
  | EmptyString => EmptyString
  | String c s' =>
      let r := rstrip s' in
      if is_empty r && is_space c then EmptyString else String c r
  end.

Definition strip (s : string) : string := rstrip (lstrip s).

(** The value of a run of decimal digits, most significant first. *)
Fixpoint digits_value (acc : Z) (s : string) : option Z :=
  match s with
  | EmptyString => Some acc
  | String c s' =>
      if is_digit c
      then digits_value (10 * acc + (Z.of_nat (nat_of_ascii c) - 48)) s'
      else None
  end.

Definition unsigned_value (s : string) : option Z :=
  if is_empty s then None else digits_value 0 s.

(** [int(s)] on a [str]: surrounding white space, an optional sign, then
    one or more decimal digits; ValueError otherwise. *)
Definition int_of_str (s : string) : outcome Z :=
  let body := strip s in
  let signed :=
    match body with
    | String "-" d => option_map Z.opp (unsigned_value d)
    | String "+" d => unsigned_value d
    | _ => unsigned_value body
    end in
  match signed with
  | Some z => Return z
  | None => Raise ValueError
  end.

(** [int(v)] on a loosely typed value. *)
Definition int_of_val (v : pyval) : outcome Z :=
  match v with
  | PNone => Raise TypeError
  | PStr s => int_of_str s
  | PInt z => Return z
  end.

(** [int(x)] on a float: truncation toward zero; OverflowError on an
    infinity, ValueError on a NaN. *)
Definition int_of_float (x : float) : outcome Z :=
  match Prim2SF x with
  | S754_zero _ => Return 0
  | S754_infinity _ => Raise OverflowError
  | S754_nan => Raise ValueError
  | S754_finite sign m e =>
      let mag := if 0 <=? e then Z.pos m * 2 ^ e else Z.pos m / 2 ^ (- e) in
      Return (if sign then - mag else mag)
  end.

(** [str(n)] on an int. *)
Definition str_of_int (n : Z) : string := NilZero.string_of_int (Z.to_int n).

(** ['{0}'.format(v)] on an optional int: [None] prints as its name. *)
Definition str_of_opt_int (v : option Z) : string :=
  match v with
  | Some n => str_of_int n
  | None => "None"
  end.

(** ['{0:0>2}'.format(n)]: [str(n)] right-aligned in a field of width 2,
    filled with the character 0. *)
Definition pad2 (n : Z) : string :=
  let s := str_of_int n in
  match String.length s with
  | O => "00"
  | S O => "0" ++ s
  | _ => s
  end.

(** [not s] and friends: truth of optional values. *)
Definition truthy_uni (u : option unicode) : bool :=
  match u with
  | Some (_ :: _) => true
  | _ => false
  end.

Definition truthy_int (n : option Z) : bool :=
  match n with
  | Some z => negb (z =? 0)
  | None => false
  end.

(** [u.encode('utf-8')] on a [unicode] object. *)
Definition byte (n : N) : ascii := ascii_of_N (n mod 256).

Definition utf8_char (c : N) : string :=
  (if c <? 128 then String (byte c) EmptyString
   else if c <? 2048 then
     String (byte (192 + c / 64)) (String (byte (128 + c mod 64)) EmptyString)
   else if c <? 65536 then
     String (byte (224 + c / 4096))
       (String (byte (128 + (c / 64) mod 64))
          (String (byte (128 + c mod 64)) EmptyString))
   else
     String (byte (240 + (c / 262144) mod 8))
       (String (byte (128 + (c / 4096) mod 64))
          (String (byte (128 + (c / 64) mod 64))
             (String (byte (128 + c mod 64)) EmptyString))))%N.

Definition encode_utf8 (u : unicode) : string :=
  fold_right (fun c acc => utf8_char c ++ acc) EmptyString u.

(** A [unicode] literal with ASCII content. *)
Definition u (s : string) : unicode :=
  map N_of_ascii (list_ascii_of_string s).

End Py.

(** ** [time.strptime] for the one format the module uses *)

Module Time.

(** The fields of a [struct_time] that [strptime] reads from the text and
    [mktime] reads back ([tm_wday] and [tm_yday] are derived from them,
    [tm_isdst] is [-1]). *)
Record struct_time : Type := {
  tm_year : Z; tm_mon : Z; tm_mday : Z;
  tm_hour : Z; tm_min : Z; tm_sec : Z
}.

(** The text before and after the first occurrence of [c]. *)
Fixpoint cut (c : ascii) (s : string) : option (string * string) :=
  match s with
  | EmptyString => None
  | String a s' =>
      if Ascii.eqb a c then Some (EmptyString, s')
      else match cut c s' with
           | Some (l, r) => Some (String a l, r)
           | None => None
           end
  end.

(** A numeric field of [lo_len] to [hi_len] digits with a value in
    [lo .. hi]. *)
Definition field (lo_len hi_len : nat) (lo hi : Z) (s : string) : option Z :=
  let n := String.length s in
  if (lo_len <=? n)%nat && (n <=? hi_len)%nat then
    match Py.digits_value 0 s with
    | Some v => if (lo <=? v) && (v <=? hi) then Some v else None
    | None => None
    end
  else None.

(** [%d]: 3[0-1] | [1-2]\d | 0[1-9] | [1-9] | space [1-9] *)
Definition day_field (s : string) : option Z :=
  match s with
  | String " " d => field 1 1 1 9 d
  | _ => field 1 2 1 31 s
  end.

Definition is_leap (y : Z) : bool :=
  ((y mod 4 =? 0) && negb (y mod 100 =? 0)) || (y mod 400 =? 0).

Definition days_in_month (y m : Z) : Z :=
  if m =? 2 then (if is_leap y then 29 else 28)
  else if (m =? 4) || (m =? 6) || (m =? 9) || (m =? 11) then 30
  else 31.

(** [time.strptime(s, '%d/%m/%Y %H:%M:%S')]: the whole of [s] has to match
    day/month/year, white space, hour:minute:second, and the date has to
    exist; ValueError otherwise. *)
Definition strptime (s : string) : outcome struct_time :=
  let parsed :=
    '(d, r1) ← cut "/" s;
    '(m, r2) ← cut "/" r1;
    let y := substring 0 4 r2 in
    let r3 := Py.slice_from r2 4 in
    match r3 with
    | String c _ =>
        if Py.is_space c then
          '(h, r4) ← cut ":" (Py.lstrip r3);
          '(mi, se) ← cut ":" r4;
          dv ← day_field d;
          mv ← field 1 2 1 12 m;
          yv ← field 4 4 0 9999 y;
          hv ← field 1 2 0 23 h;
          miv ← field 1 2 0 59 mi;
          sv ← field 1 2 0 61 se;
          if (1 <=? yv) && (dv <=? days_in_month yv mv)
          then Some {| tm_year := yv; tm_mon := mv; tm_mday := dv;
                       tm_hour := hv; tm_min := miv; tm_sec := sv |}
          else None
        else None
    | EmptyString => None
    end in
  match parsed with
  | Some st => Return st
  | None => Raise ValueError
  end.

(** Days from 1970-01-01 to the given civil date (proleptic Gregorian). *)
Definition days_from_civil (y m d : Z) : Z :=
  let y' := if m <=? 2 then y - 1 else y in
  let era := y' / 400 in
  let yoe := y' - era * 400 in
  let mp := (m + 9) mod 12 in
  let doy := (153 * mp + 2) / 5 + d - 1 in
  let doe := yoe * 365 + yoe / 4 - yoe / 100 + doy in
  era * 146097 + doe - 719468.

(** [time.mktime] on a host whose local time is UTC. *)
Definition mktime_utc (st : struct_time) : outcome float :=
  let secs := days_from_civil (tm_year st) (tm_mon st) (tm_mday st) * 86400
              + tm_hour st * 3600 + tm_min st * 60 + tm_sec st in
  if (0 <=? secs) && (secs <? 2 ^ 62)
  then Return (PrimFloat.of_uint63 (Uint63.of_Z secs))
  else Raise OverflowError.

End Time.

(** ** The host and the effects *)

(** One WMI process handle: the fields the module reads, and what the
    owner-lookup method does when called: it raises, or returns
    [(domain, error_code, user)]. *)
Record process : Type := {
  CommandLine : option unicode;
  Name : unicode;
  ProcessId : Z;
  GetOwner : outcome (option unicode * option Z * option unicode)
}.

(** The state of the host, as the collaborators of the module expose it. *)
Record OS : Type := {
  (** [__salt__['cmd.run'](cmd)] *)
  cmd_run : string -> outcome string;
  (** [__salt__['config.get'](key)] *)
  config_get : string -> pyval;
  (** [salt.utils.network.host_to_ip]: an IPv4 address, or [None] *)
  host_to_ip : string -> option string;
  (** [subprocess.check_output(argv)] *)
  check_output : list string -> outcome string;
  (** [wmi.WMI().win32_process()] *)
  win32_process : outcome (list process);
  (** [wmi.WMI().query(wql)]: the [WorkingSet] property of each record *)
  wmi_query : string -> outcome (list pyval);
  (** [os.getpid()] *)
  getpid : Z;
  (** [getattr(ctypes.windll.kernel32, name)]: a disk-space function, which
      returns its BOOL and the three 64-bit counters it writes through the
      pointers (available to caller, total, free) *)
  kernel32 : string -> option (pystr -> Z * Z * Z * Z);
  (** [time.time()] *)
  time_time : float;
  (** [time.mktime(st)], which depends on the time zone of the host *)
  mktime : Time.struct_time -> outcome float
}.

Inductive level : Type := LogError | LogWarning.

(** [event.fire_event({'master': master}, tag)] *)
Record event : Type := {
  data_master : option string;
  tag : string
}.

(** What a call has written so far, oldest first. *)
Record effects : Type := {
  logged : list (level * string);
  fired : list event
}.

Definition no_effects : effects := {| logged := []; fired := [] |}.

(** Computations that may raise and that log and fire events. *)
Definition M (A : Type) : Type := effects -> outcome A * effects.

Definition ret {A} (a : A) : M A := fun s => (Return a, s).

Definition raise {A} (e : exn) : M A := fun s => (Raise e, s).

Definition bind {A B} (c : M A) (k : A -> M B) : M B :=
  fun s =>
    match c s with
    | (Return a, s') => k a s'
    | (Raise e, s') => (Raise e, s')
    end.

Definition lift {A} (o : outcome A) : M A := fun s => (o, s).

(** [try: body / except cls: handler], where [catches] tells whether the
    exception is an instance of [cls]. *)
Definition try_except {A} (body : M A) (catches : exn -> bool) (handler : exn -> M A) : M A :=
  fun s =>
    match body s with
    | (Raise e, s') => if catches e then handler e s' else (Raise e, s')
    | r => r
    end.

Definition log (l : level) (msg : string) : M unit :=
  fun s => (Return tt, {| logged := logged s ++ [(l, msg)]; fired := fired s |}).

Definition fire_event (data : option string) (t : string) : M unit :=
  fun s => (Return tt, {| logged := logged s;
                          fired := fired s ++ [{| data_master := data; tag := t |}] |}).

#[global] Instance M_ret : MRet M := @ret.
#[global] Instance M_bind : MBind M := fun A B k c => bind c k.
#[global] Instance M_fmap : FMap M := fun A B f c => bind c (fun a => ret (f a)).

Definition crlf : string := String "013" (String "010" EmptyString).
Definition lf : string := String "010" EmptyString.

(** ** The module *)

(** [cpuload()] *)
Definition cpuload (os : OS) : M Z :=
  (* list2cmdline(['wmic', 'cpu']) *)
  let cmd := "wmic cpu" in
  out ← lift (cmd_run os cmd);
  let info := Py.split out crlf in
  header ← lift (Py.item info 0);
  column ← lift (Py.index "LoadPercentage" header 0);
  row ← lift (Py.item info 1);
  end_ ← lift (Py.index " " row (column + 1));
  lift (Py.int_of_str (Py.slice row column end_)).

(** [_byte_calc(val)] *)
Definition _byte_calc (val : Z) : string :=
  if val <? 1024 then Py.str_of_int val ++ "B"
  else if val <? 1038336 then Py.str_of_int (val / 1024) ++ "KB"
  else if val <? 1073741824 then Py.str_of_int (val / 1038336) ++ "MB"
  else if val <? 1099511627776 then Py.str_of_int (val / 1073741824) ++ "GB"
  else Py.str_of_int (val / 1099511627776) ++ "TB".

(** [ctypes.c_ulonglong(raw).value] and [ctypes.c_longlong(raw).value] *)
Definition c_ulonglong_value (raw : Z) : Z := raw mod 2 ^ 64.

Definition c_longlong_value (raw : Z) : Z :=
  let w := raw mod 2 ^ 64 in
  if w <? 2 ^ 63 then w else w - 2 ^ 64.

(** [not path] *)
Definition path_unset (path : option pystr) : bool :=
  match path with
  | None | Some (Str EmptyString) | Some (Uni []) => true
  | _ => false
  end.

(** The dict [diskusage] returns. *)
Record usage : Type := {
  total : pyval;
  used : pyval;
  free : pyval
}.

(** [diskusage(human_readable, path)] *)
Definition diskusage (os : OS) (human_readable : bool) (path : option pystr) : M usage :=
  let path := if path_unset path then Str "c:/" else default (Str "c:/") path in
  (* sys.version_info >= (3, ) is false; six.text_type is unicode *)
  let name :=
    match path with
    | Uni _ => "GetDiskFreeSpaceExw"
    | Str _ => "GetDiskFreeSpaceExA"
    end in
  match kernel32 os name with
  | None => raise AttributeError
  | Some fun_ =>
      let '(r, _, total_raw, free_raw) := fun_ path in
      if r =? 0 then raise WindowsError
      else
        let total_val := c_ulonglong_value total_raw in
        let free_val := c_longlong_value free_raw in
        let used_val := total_val - free_val in
        if human_readable
        then mret {| total := PStr (_byte_calc total_val);
                    used := PStr (_byte_calc used_val);
                    free := PStr (_byte_calc free_val) |}
        else mret {| total := PInt total_val; used := PInt used_val; free := PInt free_val |}
  end.

(** The locals of [_get_process_owner] after its [try] block. *)
Record owner_locals : Type := {
  owner : gmap string string;
  domain : option unicode;
  error_code : option Z;
  user : option unicode
}.

(** The [try] block of [_get_process_owner] with its [except Exception:
    pass]: every assignment made before the exception is kept. *)
Definition owner_try (process : process) : owner_locals :=
  match GetOwner process with
  | Raise _ =>
      {| owner := ∅; domain := None; error_code := None; user := None |}
  | Return (domain, error_code, user) =>
      let owner :=
        match user with
        | None => ∅                        (* None.encode: AttributeError *)
        | Some us =>
            let owner := <["user" := Py.encode_utf8 us]> ∅ in
            match domain with
            | None => owner                (* None.encode: AttributeError *)
            | Some ds => <["user_domain" := Py.encode_utf8 ds]> owner
            end
        end in
      {| owner := owner; domain := domain; error_code := error_code; user := user |}
  end.

(** [_get_process_owner(process)] *)
Definition _get_process_owner (process : process) : M (gmap string string) :=
  let l := owner_try process in
  if negb (Py.truthy_int (error_code l)) && (Py.truthy_uni (user l) && Py.truthy_uni (domain l))
  then
    mret (<["user_domain" := Py.encode_utf8 (default [] (domain l))]>
            (<["user" := Py.encode_utf8 (default [] (user l))]> (owner l)))
  else if ((ProcessId process =? 0) || (ProcessId process =? 4))
          && bool_decide (error_code l = Some 2)
  then
    mret (<["user_domain" := "NT AUTHORITY"]> (<["user" := "SYSTEM"]> (owner l)))
  else
    log LogWarning ("Error getting owner of process; PID='"
                    ++ Py.str_of_int (ProcessId process)
                    ++ "'; Error: " ++ Py.str_of_opt_int (error_code l));;
    mret (owner l).

(** [_get_process_info(proc)] *)
Definition _get_process_info (proc : process) : M (gmap string string) :=
  let cmd := Py.encode_utf8 (default [] (CommandLine proc)) in
  let name := Py.encode_utf8 (Name proc) in
  owner ← _get_process_owner proc;
  mret (<["cmd" := cmd]> (<["name" := name]> owner)).

(** What [procs] returns: the count, or the dict of process data. *)
Inductive procs_result : Type :=
| ProcCount (n : Z)
| ProcInfo (info : gmap Z (gmap string string)).

(** The [for proc in processes] loop of [procs]. *)
Fixpoint procs_loop (processes : list process) (process_info : gmap Z (gmap string string))
  : M (gmap Z (gmap string string)) :=
  match processes with
  | [] => mret process_info
  | proc :: rest =>
      info ← _get_process_info proc;
      procs_loop rest (<[ProcessId proc := info]> process_info)
  end.

(** [procs(count)] *)
Definition procs (os : OS) (count : bool) : M procs_result :=
  processes ← lift (win32_process os);
  if count then mret (ProcCount (Z.of_nat (length processes)))
  else
    process_info ← procs_loop processes ∅;
    mret (ProcInfo process_info).

(** [saltmem(human_readable)] *)
Definition saltmem (os : OS) (human_readable : bool) : M pyval :=
  result ← lift (wmi_query os
    ("SELECT WorkingSet FROM Win32_PerfRawData_PerfProc_Process WHERE IDProcess="
     ++ Py.str_of_int (getpid os)));
  first ← lift (Py.item result 0);
  mem ← lift (Py.int_of_val first);
  if human_readable then mret (PStr (_byte_calc mem)) else mret (PInt mem).

(** The [if human_readable:] block of [uptime], on the int it makes of the
    elapsed seconds. *)
Definition uptime_human (uptime : Z) : string :=
  let seconds := uptime mod 60 in
  let uptime := uptime / 60 in
  let minutes := uptime mod 60 in
  let uptime := uptime / 60 in
  let hours := uptime mod 24 in
  let uptime := uptime / 24 in
  let ret := Py.pad2 hours ++ ":" ++ Py.pad2 minutes ++ ":" ++ Py.pad2 seconds in
  let ret :=
    if 0 <? uptime
    then "Days: " ++ Py.str_of_int (uptime mod 365) ++ " " ++ ret
    else ret in
  let ret :=
    if 365 <? uptime
    then "Years: " ++ Py.str_of_int (uptime / 365) ++ " " ++ ret
    else ret in
  ret.

(** What [uptime] returns: the elapsed seconds, or their rendering. *)
Inductive uptime_result : Type :=
| Seconds (x : float)
| Rendered (s : string).

(** The [for line in outs.split('\r\n')] loop of [uptime]: the last line
    that contains the marker. *)
Definition find_stats_line (outs : string) : string :=
  fold_left
    (fun stats_line line =>
       if Py.contains "Statistics since" line then line else stats_line)
    (Py.split outs crlf) EmptyString.

(** [uptime(human_readable)] *)
Definition uptime (os : OS) (human_readable : bool) : M uptime_result :=
  (* list2cmdline(['net', 'stats', 'srv']) *)
  let cmd := "net stats srv" in
  outs ← lift (cmd_run os cmd);
  let stats_line := find_stats_line outs in
  let startup_time := Py.slice_from stats_line (String.length "Statistics Since ") in
  startup_time ← lift (Time.strptime startup_time);
  startup_time ← lift (mktime os startup_time);
  let uptime := PrimFloat.sub (time_time os) startup_time in
  if human_readable then
    uptime ← lift (Py.int_of_float uptime);
    mret (Rendered (uptime_human uptime))
  else mret (Seconds uptime).

(** [except subprocess.CalledProcessError] *)
Definition is_CalledProcessError (e : exn) : bool :=
  match e with
  | CalledProcessError _ => true
  | _ => false
  end.

(** The [for line in lines] loop of [_win_remotes_on]. *)
Fixpoint remotes_loop (port : Z) (lines : list string) (remotes : gset string)
  : outcome (gset string) :=
  match lines with
  | [] => Return remotes
  | line :: rest =>
      if negb (Py.contains "ESTABLISHED" line) then remotes_loop port rest remotes
      else
        match Py.item (Py.split_ws line) 2 with
        | Raise e => Raise e
        | Return endpoint =>
            match Py.unpack2 (Py.rsplit1 endpoint ":") with
            | Raise e => Raise e
            | Return (remote_host, remote_port) =>
                match Py.int_of_str remote_port with
                | Raise e => Raise e
                | Return p =>
                    if negb (p =? port) then remotes_loop port rest remotes
                    else remotes_loop port rest ({[remote_host]} ∪ remotes)
                end
            end
        end
  end.

(** [_win_remotes_on(port)], the helper nested in [master] *)
Definition _win_remotes_on (os : OS) (port : Z) : M (gset string) :=
  let remotes : gset string := ∅ in
  data ← try_except
           (lift (check_output os ["netstat"; "-n"; "-p"; "TCP"]))
           is_CalledProcessError
           (fun e => log LogError "Failed netstat";; raise e);
  let lines := Py.split data lf in
  lift (remotes_loop port lines remotes).

(** [v != ''] *)
Definition not_empty_str (v : pyval) : bool :=
  match v with
  | PStr EmptyString => false
  | _ => true
  end.

(** [master_ip in ips], where [master_ip] may be [None] *)
Definition ip_in (master_ip : option string) (ips : gset string) : bool :=
  match master_ip with
  | Some ip => bool_decide (ip ∈ ips)
  | None => false
  end.

(** The port [master] looks for: 4505 unless [publish_port] is configured. *)
Definition publish_port (os : OS) : outcome Z :=
  let port := 4505 in
  if not_empty_str (config_get os "publish_port")
  then Py.int_of_val (config_get os "publish_port")
  else Return port.

(** The address [master] looks for: the resolved identifier, or [None]. *)
Definition resolve_master (os : OS) (master : option string) : option string :=
  let master_ip := None in
  match master with
  | Some m =>
      match host_to_ip os m with
      | Some tmp_ip => Some tmp_ip
      | None => master_ip
      end
  | None => master_ip
  end.

(** [master(master, connected)] *)
Definition master (os : OS) (master : option string) (connected : bool) : M unit :=
  port ← lift (publish_port os);
  let master_ip := resolve_master os master in
  ips ← _win_remotes_on os port;
  if connected then
    if negb (ip_in master_ip ips)
    then fire_event master "__master_disconnected"
    else mret tt
  else
    if ip_in master_ip ips
    then fire_event master "__master_connected"
    else mret tt.

(** The query adapters and what each returns, for statements about all of
    them. *)
Inductive adapter : Type :=
| Cpuload
| Diskusage (human_readable : bool) (path : option pystr)
| Procs (count : bool)
| Saltmem (human_readable : bool)
| Uptime (human_readable : bool).

Inductive value : Type :=
| VInt (n : Z)
| VVal (v : pyval)
| VUsage (u : usage)
| VProcs (r : procs_result)
| VUptime (r : uptime_result).

Definition call (os : OS) (a : adapter) : M value :=
  match a with
  | Cpuload => VInt <$> cpuload os
  | Diskusage h p => VUsage <$> diskusage os h p
  | Procs c => VProcs <$> procs os c
  | Saltmem h => VVal <$> saltmem os h
  | Uptime h => VUptime <$> uptime os h
  end.

(** ** Reading the results: what the specification talks about *)

(** The unit of a formatted byte count: what follows its leading digits. *)
Fixpoint unit_suffix (s : string) : string :=
  match s with
  | String c s' => if Py.is_digit c then unit_suffix s' else s
  | EmptyString => s
  end.

(** The unit the specification assigns to a byte count. *)
Definition spec_unit (v : Z) : string :=
  if v <? 1024 then "B"
  else if v <? 1038336 then "KB"
  else if v <? 1073741824 then "MB"
  else if v <? 1099511627776 then "GB"
  else "TB".

(** A line of the connection table that shows an established connection to
    [host] on [port]. *)
Definition established (port : Z) (host line : string) : Prop :=
  Py.contains "ESTABLISHED" line = true
  ∧ ∃ endpoint remote_port,
      Py.item (Py.split_ws line) 2 = Return endpoint
      ∧ Py.rsplit1 endpoint ":" = [host; remote_port]
      ∧ Py.int_of_str remote_port = Return port.

(** The warning [_get_process_owner] logs for a process and an error code. *)
Definition owner_warning (pid : Z) (code : option Z) : level * string :=
  (LogWarning,
   "Error getting owner of process; PID='" ++ Py.str_of_int pid
   ++ "'; Error: " ++ Py.str_of_opt_int code).


(** ** Sample hosts *)

(** A host on UTC whose commands all print [out], whose connection listing
    ends as [netstat], whose process table is [ps], and whose clock shows
    [now]. *)
Definition host (out : string) (netstat : outcome string) (ps : list process) (now : float) : OS :=
  {| cmd_run := fun _ => Return out;
     config_get := fun _ => PStr EmptyString;
     host_to_ip := fun name => Some name;
     check_output := fun _ => netstat;
     win32_process := Return ps;
     wmi_query := fun _ => Return [PStr "52428800"];
     getpid := 4242;
     kernel32 := fun name =>
       if String.eqb name "GetDiskFreeSpaceExA"
       then Some (fun _ => (1, 1000, 4096, 1000))
       else None;
     time_time := now;
     mktime := Time.mktime_utc |}.

(** The comma-separated sample of the specification. *)
Definition wmic_csv : string :=
  "Node,CPU,LoadPercentage" ++ crlf ++ ",0,37 " ++ crlf.

(** The same reading in aligned columns, as the parser expects them. *)
Definition wmic_columns : string :=
  "LoadPercentage  Name" ++ crlf ++ "37              CPU0" ++ crlf.

Definition net_stats_Since : string :=
  "Server Statistics for \\HOST" ++ crlf ++ crlf
  ++ "Statistics Since 1/1/2020 00:00:00" ++ crlf ++ crlf
  ++ "Sessions accepted                  1" ++ crlf.

Definition net_stats_since : string :=
  "Server Statistics for \\HOST" ++ crlf ++ crlf
  ++ "Statistics since 1/1/2020 00:00:00" ++ crlf ++ crlf
  ++ "Sessions accepted                  1" ++ crlf.

(** 2020-01-01 00:00:00 UTC, and the struct [strptime] makes of it. *)
Definition epoch_2020 : float := 1577836800%float.

Definition new_year_2020 : Time.struct_time :=
  {| Time.tm_year := 2020; Time.tm_mon := 1; Time.tm_mday := 1;
     Time.tm_hour := 0; Time.tm_min := 0; Time.tm_sec := 0 |}.

(** The connection table of the docstring of [_win_remotes_on]. *)
Definition netstat_sample : string :=
  lf ++ "Active Connections" ++ lf ++ lf
  ++ "  Proto  Local Address          Foreign Address        State" ++ lf
  ++ "  TCP    10.1.1.26:3389         10.1.1.1:4505          ESTABLISHED" ++ lf
  ++ "  TCP    10.1.1.26:56862        10.1.1.10:49155        TIME_WAIT" ++ lf
  ++ "  TCP    10.1.1.26:56868        169.254.169.254:80     CLOSE_WAIT" ++ lf
  ++ "  TCP    127.0.0.1:49197        127.0.0.1:49198        ESTABLISHED" ++ lf
  ++ "  TCP    127.0.0.1:49198        127.0.0.1:49197        ESTABLISHED" ++ lf.

(** Process handles: the owner lookup is denied, returns empty strings,
    returns a user without a domain, or raises. *)
Definition proc_denied (pid : Z) : process :=
  {| CommandLine := None; Name := Py.u "svc.exe"; ProcessId := pid;
     GetOwner := Return (None, Some 2, None) |}.

Definition proc_empty_fields (pid : Z) : process :=
  {| CommandLine := None; Name := Py.u "svc.exe"; ProcessId := pid;
     GetOwner := Return (Some [], Some 2, Some []) |}.

Definition proc_user_only (pid : Z) : process :=
  {| CommandLine := None; Name := Py.u "svc.exe"; ProcessId := pid;
     GetOwner := Return (None, Some 2, Some (Py.u "bob")) |}.

Definition proc_raising (pid : Z) (e : exn) : process :=
  {| CommandLine := Some (Py.u "svc.exe -k"); Name := Py.u "svc.exe"; ProcessId := pid;
     GetOwner := Raise e |}.

(** ** Further readings and samples *)

(** A line the loop of [_win_remotes_on] gets past: it does not mention
    ESTABLISHED, or its third field is [host:port] with an integer port. *)
Definition well_formed (line : string) : Prop :=
  Py.contains "ESTABLISHED" line = false
  ∨ ∃ endpoint remote_host remote_port p,
      Py.item (Py.split_ws line) 2 = Return endpoint
      ∧ Py.rsplit1 endpoint ":" = [remote_host; remote_port]
      ∧ Py.int_of_str remote_port = Return p.

(** A raw value as [human_readable=True] shows it. *)
Definition human_val (v : pyval) : pyval :=
  match v with
  | PInt n => PStr (_byte_calc n)
  | _ => v
  end.

Definition human_usage (u : usage) : usage :=
  {| total := human_val (total u); used := human_val (used u); free := human_val (free u) |}.

(** The keys of a process entry. *)
Definition entry_keys : gset string := {["cmd"; "name"; "user"; "user_domain"]}.

(** A connection table with a line that names the state but no endpoints. *)
Definition netstat_garbled : string :=
  "  TCP    10.1.1.26:3389         10.1.1.1:4505          ESTABLISHED" ++ lf
  ++ "  TCP    ESTABLISHED" ++ lf.

(** A process whose owner lookup succeeds. *)
Definition proc_owned (pid : Z) : process :=
  {| CommandLine := Some (Py.u "notepad.exe a.txt"); Name := Py.u "notepad.exe";
     ProcessId := pid;
     GetOwner := Return (Some (Py.u "WORKGROUP"), Some 0, Some (Py.u "bob")) |}.

Definition process_table : list process :=
  [proc_denied 4; proc_owned 1234; proc_raising 2345 (WmiError 5); proc_denied 3456].

(** A computation is silent when it writes nothing, and quiet when it
    fires no event and only appends to the log. *)
Definition silent {A} (c : M A) : Prop :=
  forall s, snd (c s) = s.

Definition quiet {A} (c : M A) : Prop :=
  forall s, fired (snd (c s)) = fired s
            ∧ ∃ new, logged (snd (c s)) = (logged s ++ new)%list
                     ∧ Forall (fun r => fst r = LogWarning) new.

(** Statistics output with two marker lines, and CPU output on one line. *)
Definition net_stats_twice : string :=
  "Statistics since 1/1/2019 00:00:00" ++ crlf
  ++ "Statistics since 1/1/2020 00:00:00" ++ crlf.

Definition wmic_one_line : string := "LoadPercentage  37 ".

(** The established connections of the docstring's table alone, in another
    order and with one of them listed twice. *)
Definition netstat_established_only : string :=
  "  TCP    127.0.0.1:49198        127.0.0.1:49197        ESTABLISHED" ++ lf
  ++ "  TCP    10.1.1.26:3389         10.1.1.1:4505          ESTABLISHED" ++ lf
  ++ "  TCP    127.0.0.1:49197        127.0.0.1:49198        ESTABLISHED" ++ lf
  ++ "  TCP    10.1.1.26:3389         10.1.1.1:4505          ESTABLISHED".

(** A host like [host] whose configuration has [v] under every key. *)
Definition host_configured (v : pyval) (netstat : outcome string) : OS :=
  {| cmd_run := fun _ => Return EmptyString;
     config_get := fun _ => v;
     host_to_ip := fun name => Some name;
     check_output := fun _ => netstat;
     win32_process := Return [];
     wmi_query := fun _ => Return [];
     getpid := 4242;
     kernel32 := fun _ => None;
     time_time := epoch_2020;
     mktime := Time.mktime_utc |}.

(** ** The connectivity check, read from its inputs *)

(** The port the configuration names: 4505 when [publish_port] is [''],
    else the int it holds, as an int or in decimal text. *)
Definition configured_port (os : OS) (port : Z) : Prop :=
  (config_get os "publish_port" = PStr EmptyString ∧ port = 4505)
  ∨ config_get os "publish_port" = PInt port
  ∨ config_get os "publish_port" = PStr (Py.str_of_int port).

(** The identifier names a host, and name resolution gives [ip] for it. *)
Definition master_address (os : OS) (m : option string) (ip : string) : Prop :=
  ∃ name, m = Some name ∧ host_to_ip os name = Some ip.

(** The listing [data] shows an established connection to [ip] on [port]. *)
Definition remote_on (port : Z) (data ip : string) : Prop :=
  ∃ line, In line (Py.split data lf) ∧ established port ip line.

(** The resolved master address is among the established remotes. *)
Definition master_present (os : OS) (m : option string) (port : Z) (data : string) : Prop :=
  ∃ ip, master_address os m ip ∧ remote_on port data ip.

Definition disconnected_event (m : option string) : event :=
  {| data_master := m; tag := "__master_disconnected" |}.

Definition connected_event (m : option string) : event :=
  {| data_master := m; tag := "__master_connected" |}.

(** A host on which only [name] resolves, to [ip]. *)
Definition host_named (name ip : string) (netstat : outcome string) : OS :=
  {| cmd_run := fun _ => Return EmptyString;
     config_get := fun _ => PStr EmptyString;
     host_to_ip := fun n => if String.eqb n name then Some ip else None;
     check_output := fun _ => netstat;
     win32_process := Return [];
     wmi_query := fun _ => Return [];
     getpid := 4242;
     kernel32 := fun _ => None;
     time_time := epoch_2020;
     mktime := Time.mktime_utc |}.

(** A host with one drive: the ANSI function answers for ['c:/'] and fails
    for every other path; there is no function of the name the code asks
    for on a unicode path. *)
Definition host_drive_c : OS :=
  {| cmd_run := fun _ => Return EmptyString;
     config_get := fun _ => PStr EmptyString;
     host_to_ip := fun _ => None;
     check_output := fun _ => Raise OSError;
     win32_process := Return [];
     wmi_query := fun _ => Return [];
     getpid := 4242;
     kernel32 := fun name =>
       if String.eqb name "GetDiskFreeSpaceExA"
       then Some (fun path =>
                    match path with
                    | Str p => if String.eqb p "c:/" then (1, 1000, 4096, 1000)
                               else (0, 0, 0, 0)
                    | Uni _ => (0, 0, 0, 0)
                    end)
       else None;
     time_time := epoch_2020;
     mktime := Time.mktime_utc |}.

(** ** The module with its state *)

(** What the module holds between calls: the module-level dict [__opts__],
    and the COM binding of the thread, as the number of initialisations not
    yet undone. *)
Record module_state : Type := {
  opts : gmap string pyval;
  com_depth : nat
}.

Module Stateful.

(** Computations that also read and write the module state; the state
    survives an exception. *)
Definition W (A : Type) : Type :=
  module_state -> effects -> outcome A * module_state * effects.

(** Code that does not touch the module state. *)
Definition in_module {A} (c : M A) : W A :=
  fun g s => let '(r, s') := c s in (r, g, s').

Definition bind {A B} (c : W A) (k : A -> W B) : W B :=
  fun g s =>
    match c g s with
    | (Return a, g', s') => k a g' s'
    | (Raise e, g', s') => (Raise e, g', s')
    end.

(** Modelled from the spec: [salt.utils.winapi.Com], which is not among the
    sources.  The COM binding is acquired on entering the [with] block and
    released on leaving it, whether the block returns or raises. *)
Definition CoInitialize (g : module_state) : module_state :=
  {| opts := opts g; com_depth := S (com_depth g) |}.

Definition CoUninitialize (g : module_state) : module_state :=
  {| opts := opts g; com_depth := Nat.pred (com_depth g) |}.

Definition with_Com {A} (body : W A) : W A :=
  fun g s =>
    let '(r, g', s') := body (CoInitialize g) s in
    (r, CoUninitialize g', s').

(** [procs] after its [with] block. *)
Definition procs_body (count : bool) (processes : list process) : M procs_result :=
  if count then mret (ProcCount (Z.of_nat (length processes)))
  else
    process_info ← procs_loop processes ∅;
    mret (ProcInfo process_info).

(** [saltmem] after its query. *)
Definition saltmem_body (human_readable : bool) (result : list pyval) : M pyval :=
  first ← lift (Py.item result 0);
  mem ← lift (Py.int_of_val first);
  if human_readable then mret (PStr (_byte_calc mem)) else mret (PInt mem).

Definition cpuload (os : OS) : W Z := in_module (cpuload os).

Definition diskusage (os : OS) (human_readable : bool) (path : option pystr) : W usage :=
  in_module (diskusage os human_readable path).

(** [procs(count)]: the [with] block holds the enumeration only. *)
Definition procs (os : OS) (count : bool) : W procs_result :=
  bind (with_Com (in_module (lift (win32_process os))))
       (fun processes => in_module (procs_body count processes)).

(** [saltmem(human_readable)]: the whole body is in the [with] block. *)
Definition saltmem (os : OS) (human_readable : bool) : W pyval :=
  with_Com
    (bind (in_module (lift (wmi_query os
             ("SELECT WorkingSet FROM Win32_PerfRawData_PerfProc_Process WHERE IDProcess="
              ++ Py.str_of_int (getpid os)))))
          (fun result => in_module (saltmem_body human_readable result))).

Definition uptime (os : OS) (human_readable : bool) : W uptime_result :=
  in_module (uptime os human_readable).

Definition call (os : OS) (a : adapter) : W value :=
  match a with
  | Cpuload => bind (cpuload os) (fun r => in_module (mret (VInt r)))
  | Diskusage h p => bind (diskusage os h p) (fun r => in_module (mret (VUsage r)))
  | Procs c => bind (procs os c) (fun r => in_module (mret (VProcs r)))
  | Saltmem h => bind (saltmem os h) (fun r => in_module (mret (VVal r)))
  | Uptime h => bind (uptime os h) (fun r => in_module (mret (VUptime r)))
  end.

End Stateful.

(** * Properties *)

(** ** Running the monad *)

Ltac run_M :=
  unfold mbind, M_bind, fmap, M_fmap, mret, M_ret, bind, ret, raise, lift,
    try_except, log, fire_event.

(** ** Byte formatter *)

Lemma unit_suffix_uint (d : Decimal.uint) (t : string) :
  unit_suffix (NilEmpty.string_of_uint d ++ t) = unit_suffix t.
Proof. induction d; simpl; auto. Qed.

Lemma unit_suffix_str_of_int (n : Z) (t : string) :
  0 <= n -> unit_suffix (Py.str_of_int n ++ t) = unit_suffix t.
Proof.
  intros Hn. unfold Py.str_of_int.
  destruct n as [|p|p]; [reflexivity| |lia].
  cbn [Z.to_int NilZero.string_of_int NilZero.string_of_uint].
  destruct (Pos.to_uint p) eqn:E; try apply unit_suffix_uint.
  reflexivity.
Qed.

(** C2. For every non-negative byte count the formatter puts exactly one
    unit after the digits, chosen by the fixed thresholds 1024, 1038336,
    1073741824 and 1099511627776; 0 gives "0B", 1023 gives "1023B", and
    1024 takes the KB branch, which divides by 1024. *)
Theorem byte_calc_unit (v : Z) :
  0 <= v ->
  unit_suffix (_byte_calc v) = spec_unit v
  ∧ _byte_calc 0 = "0B"
  ∧ _byte_calc 1023 = "1023B"
  ∧ _byte_calc 1024 = Py.str_of_int (1024 / 1024) ++ "KB".
Proof.
  intros Hv. split; [|repeat split; reflexivity].
  unfold _byte_calc, spec_unit.
  repeat case_match; rewrite unit_suffix_str_of_int; try reflexivity;
    try apply Z.div_pos; lia.
Qed.

Lemma byte_calc_unit_witness :
  unit_suffix (_byte_calc 5000000) = spec_unit 5000000
  ∧ _byte_calc 0 = "0B"
  ∧ _byte_calc 1023 = "1023B"
  ∧ _byte_calc 1024 = Py.str_of_int (1024 / 1024) ++ "KB".
Proof. apply (byte_calc_unit 5000000). lia. Defined.

(** ** cpuload *)

(** C3, as the specification has it: on the comma-separated sample the
    header token starts at column 9, but the data line is only 6 characters
    long, so the search for a space from column 10 fails and [cpuload]
    raises ValueError instead of returning 37. *)
Lemma cpuload_csv_sample_raises :
  cpuload (host wmic_csv (Raise OSError) [] epoch_2020) no_effects
  = (Raise ValueError, no_effects)
  ∧ Py.item (Py.split wmic_csv crlf) 1 = Return ",0,37 "
  ∧ Py.index "LoadPercentage" "Node,CPU,LoadPercentage" 0 = Return 9%nat
  ∧ Py.index " " ",0,37 " 10 = Raise ValueError.
Proof. repeat split; vm_compute; reflexivity. Qed.

(** C3, amended. When the first line of the command output has the token
    LoadPercentage at column [c], and the second line has a space at [e],
    the first one after column [c], and the text from [c] up to [e] reads
    as the integer [n], [cpuload] returns [n]: the value has to stand in
    the column of its header, as in aligned columns. *)
Theorem cpuload_aligned (os : OS) (out header row : string) (rest : list string)
    (c e : nat) (n : Z) (s : effects) :
  cmd_run os "wmic cpu" = Return out ->
  Py.split out crlf = header :: row :: rest ->
  String.index 0 "LoadPercentage" header = Some c ->
  String.index (c + 1) " " row = Some e ->
  Py.int_of_str (substring c (e - c) row) = Return n ->
  cpuload os s = (Return n, s).
Proof.
  intros Hout Hsplit Hc He Hn.
  unfold cpuload. run_M. rewrite Hout, Hsplit. cbn [Py.item nth_error].
  unfold Py.index. rewrite Hc, He. unfold Py.slice. rewrite Hn. reflexivity.
Qed.

Lemma cpuload_aligned_witness :
  cpuload (host wmic_columns (Raise OSError) [] epoch_2020) no_effects
  = (Return 37, no_effects).
Proof.
  apply (cpuload_aligned (host wmic_columns (Raise OSError) [] epoch_2020)
           wmic_columns "LoadPercentage  Name" "37              CPU0" [EmptyString]
           0 2 37 no_effects); vm_compute; reflexivity.
Defined.

(** ** uptime *)

Lemma fold_stats_line_last (before after : list string) (line init : string) :
  Py.contains "Statistics since" line = true ->
  Forall (fun l => Py.contains "Statistics since" l = false) after ->
  fold_left
    (fun stats_line l => if Py.contains "Statistics since" l then l else stats_line)
    (before ++ line :: after)%list init
  = line.
Proof.
  intros Hline Hafter. rewrite fold_left_app. cbn [fold_left]. rewrite Hline.
  clear Hline. generalize line.
  induction Hafter as [|l after Hl _ IH]; intros acc; cbn [fold_left]; [reflexivity|].
  rewrite Hl. apply IH.
Qed.

Lemma strptime_new_year_2020 :
  Time.strptime
    (Py.slice_from "Statistics since 1/1/2020 00:00:00" (String.length "Statistics Since "))
  = Return new_year_2020.
Proof. vm_compute. reflexivity. Qed.

(** C4, as the specification has it: the line "Statistics Since 1/1/2020
    00:00:00" does not contain the marker the code looks for, which is
    spelled "Statistics since"; no line is selected, the empty timestamp
    does not parse, and [uptime] raises ValueError. *)
Lemma uptime_capital_Since_raises :
  uptime (host net_stats_Since (Raise OSError) [] 1577923200%float) false no_effects
  = (Raise ValueError, no_effects)
  ∧ Py.contains "Statistics since" "Statistics Since 1/1/2020 00:00:00" = false
  ∧ find_stats_line net_stats_Since = EmptyString.
Proof. repeat split; vm_compute; reflexivity. Qed.

(** C4, amended. When the command output has the line "Statistics since
    1/1/2020 00:00:00" (the marker as the code spells it) and no later line
    with the marker, and the host turns that local time into [epoch],
    [uptime(human_readable=False)] returns exactly the float
    [time.time() - epoch]. *)
Theorem uptime_elapsed_seconds (os : OS) (outs : string) (before after : list string)
    (epoch : float) (s : effects) :
  cmd_run os "net stats srv" = Return outs ->
  Py.split outs crlf = (before ++ "Statistics since 1/1/2020 00:00:00" :: after)%list ->
  Forall (fun l => Py.contains "Statistics since" l = false) after ->
  mktime os new_year_2020 = Return epoch ->
  uptime os false s = (Return (Seconds (PrimFloat.sub (time_time os) epoch)), s).
Proof.
  intros Hout Hsplit Hafter Hmk.
  unfold uptime. run_M. rewrite Hout.
  unfold find_stats_line. rewrite Hsplit.
  rewrite fold_stats_line_last by (reflexivity || assumption).
  rewrite strptime_new_year_2020, Hmk. reflexivity.
Qed.

Lemma uptime_elapsed_seconds_witness :
  uptime (host net_stats_since (Raise OSError) [] 1577923200%float) false no_effects
  = (Return (Seconds 86400%float), no_effects).
Proof.
  apply (uptime_elapsed_seconds
           (host net_stats_since (Raise OSError) [] 1577923200%float)
           net_stats_since
           ["Server Statistics for \\HOST"; EmptyString]
           [EmptyString; "Sessions accepted                  1"; EmptyString]
           epoch_2020 no_effects).
  - reflexivity.
  - vm_compute. reflexivity.
  - repeat constructor.
  - vm_compute. reflexivity.
Defined.

(** The rendering keeps hours, minutes and seconds in two digits each. *)
Lemma pad2_length (n : Z) : 0 <= n < 100 -> String.length (Py.pad2 n) = 2%nat.
Proof.
  intros Hn. unfold Py.pad2.
  destruct (String.length (Py.str_of_int n)) as [|[|[|k]]] eqn:E; try reflexivity.
  - change (S (String.length (Py.str_of_int n)) = 2%nat). rewrite E. reflexivity.
  - assumption.
  - exfalso.
    assert (Hcases : Forall (fun k => String.length (Py.str_of_int k) <= 2)%nat
                       (map Z.of_nat (seq 0 100))) by (vm_compute; repeat constructor).
    rewrite List.Forall_forall in Hcases.
    specialize (Hcases n). rewrite E in Hcases.
    enough (3 + k <= 2)%nat by lia. apply Hcases.
    apply in_map_iff. exists (Z.to_nat n). split; [lia|]. apply in_seq. lia.
Qed.

(** From the second day on, and up to the 365th, the rendering starts with
    the day count and has no year count. *)
Lemma uptime_human_days (t : Z) :
  86400 <= t < 366 * 86400 ->
  let d := t / 60 / 60 / 24 in
  uptime_human t
  = "Days: " ++ Py.str_of_int (d mod 365) ++ " "
    ++ Py.pad2 (t / 60 / 60 mod 24) ++ ":" ++ Py.pad2 (t / 60 mod 60) ++ ":" ++ Py.pad2 (t mod 60).
Proof.
  intros Ht d. unfold uptime_human. fold d.
  assert (Hd : 1 <= d <= 365).
  { unfold d. rewrite !Z.div_div by lia. split.
    - apply Z.div_le_lower_bound; lia.
    - apply Z.lt_succ_r. apply Z.div_lt_upper_bound; lia. }
  destruct (Z.ltb_spec 0 d); [|lia].
  destruct (Z.ltb_spec 365 d); [lia|]. reflexivity.
Qed.

(** C5, at 365 days of elapsed time: the host started on 2020-01-01
    00:00:00 and the clock shows 365 days later; the year count is attached
    only when the day count exceeds 365, so the rendering is "Days: 0
    00:00:00", with no "Years: 1". *)
Theorem uptime_365_days_no_years :
  uptime (host net_stats_since (Raise OSError) [] 1609372800%float) true no_effects
  = (Return (Rendered "Days: 0 00:00:00"), no_effects)
  ∧ uptime_human (365 * 86400) = "Days: 0 00:00:00"
  ∧ uptime_human (366 * 86400) = "Years: 1 Days: 1 00:00:00".
Proof. repeat split; vm_compute; reflexivity. Qed.

(** ** Process owner *)

(** What the [try] block leaves behind holds nothing but the two owner
    keys. *)
Lemma owner_try_keys (p : process) (k : string) :
  k ≠ "user" -> k ≠ "user_domain" -> owner (owner_try p) !! k = None.
Proof.
  intros Hu Hd. unfold owner_try.
  destruct (GetOwner p) as [[[d c] [us|]]|e]; cbn [owner]; [destruct d| |];
    by simplify_map_eq.
Qed.

(** X26. PID 0 or 4 with error code 2: the owner is exactly SYSTEM of NT
    AUTHORITY, whatever the lookup returned beside the code, and nothing is
    logged. *)
Lemma owner_of_system_pid (p : process) (d u : option unicode) (s : effects) :
  ProcessId p = 0 ∨ ProcessId p = 4 ->
  GetOwner p = Return (d, Some 2, u) ->
  _get_process_owner p s
  = (Return (<["user_domain" := "NT AUTHORITY"]> (<["user" := "SYSTEM"]> ∅)), s).
Proof.
  intros Hpid Hget. unfold _get_process_owner.
  assert (Hcode : error_code (owner_try p) = Some 2)
    by (unfold owner_try; rewrite Hget; reflexivity).
  rewrite Hcode. cbn [Py.truthy_int Z.eqb negb andb].
  replace ((ProcessId p =? 0) || (ProcessId p =? 4)) with true
    by (destruct Hpid as [-> | ->]; reflexivity).
  rewrite bool_decide_eq_true_2 by reflexivity. cbn [andb]. run_M.
  f_equal. f_equal. apply map_eq. intros k.
  destruct (decide (k = "user_domain")) as [->|Hd]; [by simplify_map_eq|].
  destruct (decide (k = "user")) as [->|Hu]; [by simplify_map_eq|].
  rewrite !lookup_insert_ne by done. rewrite lookup_empty.
  by apply owner_try_keys.
Qed.

(** X27. Any other PID, when the lookup returns no user: no owner field, one
    warning with the PID and the code. *)
Lemma owner_of_other_pid_denied (p : process) (d : option unicode) (s : effects) :
  ProcessId p ≠ 0 -> ProcessId p ≠ 4 ->
  GetOwner p = Return (d, Some 2, None) ->
  _get_process_owner p s
  = (Return ∅, {| logged := logged s ++ [owner_warning (ProcessId p) (Some 2)];
                  fired := fired s |}).
Proof.
  intros H0 H4 Hget. unfold _get_process_owner, owner_try. rewrite Hget.
  cbn [error_code user domain owner Py.truthy_int Py.truthy_uni Z.eqb negb andb].
  destruct (Z.eqb_spec (ProcessId p) 0); [done|].
  destruct (Z.eqb_spec (ProcessId p) 4); [done|].
  reflexivity.
Qed.

(** C6, where the code leaves the claim: PID 1234, error code 2.  When the
    lookup returns empty strings, both owner keys are in the result, with
    empty values; when it returns a user and no domain, the user key is in
    the result.  The [try] block has stored them before the code is looked
    at, and the warning branch does not take them back. *)
Theorem owner_fields_kept_on_failure :
  _get_process_owner (proc_empty_fields 1234) no_effects
  = (Return (<["user_domain" := ""]> (<["user" := ""]> ∅)),
     {| logged := [owner_warning 1234 (Some 2)]; fired := [] |})
  ∧ _get_process_owner (proc_user_only 1234) no_effects
  = (Return (<["user" := "bob"]> ∅),
     {| logged := [owner_warning 1234 (Some 2)]; fired := [] |})
  ∧ snd (owner_warning 1234 (Some 2))
  = "Error getting owner of process; PID='1234'; Error: 2".
Proof. repeat split; vm_compute; reflexivity. Qed.

(** C7. Whatever exception the owner lookup raises, [_get_process_owner]
    returns the empty owner and [_get_process_info] returns the entry with
    [cmd] and [name] only; the one trace of the failure is a warning in the
    log. *)
Theorem owner_lookup_exception_absorbed (p : process) (e : exn) (s : effects) :
  GetOwner p = Raise e ->
  let s' := {| logged := logged s ++ [owner_warning (ProcessId p) None];
               fired := fired s |} in
  let info := <["cmd" := Py.encode_utf8 (default [] (CommandLine p))]>
                (<["name" := Py.encode_utf8 (Name p)]> (∅ : gmap string string)) in
  _get_process_owner p s = (Return ∅, s')
  ∧ _get_process_info p s = (Return info, s')
  ∧ info !! "user" = None
  ∧ info !! "user_domain" = None.
Proof.
  intros Hget s' info.
  assert (Howner : _get_process_owner p s = (Return ∅, s')).
  { unfold _get_process_owner, owner_try. rewrite Hget.
    cbn [error_code user domain owner Py.truthy_int Py.truthy_uni negb andb].
    rewrite bool_decide_eq_false_2 by discriminate.
    rewrite andb_false_r. reflexivity. }
  split; [exact Howner|]. split.
  - unfold _get_process_info. run_M. rewrite Howner. reflexivity.
  - split; reflexivity.
Qed.

Lemma owner_lookup_exception_absorbed_witness :
  _get_process_owner (proc_raising 1234 (WmiError 5)) no_effects
  = (Return ∅, {| logged := [owner_warning 1234 None]; fired := [] |})
  ∧ _get_process_info (proc_raising 1234 (WmiError 5)) no_effects
  = (Return (<["cmd" := "svc.exe -k"]> (<["name" := "svc.exe"]> ∅)),
     {| logged := [owner_warning 1234 None]; fired := [] |}).
Proof.
  destruct (owner_lookup_exception_absorbed (proc_raising 1234 (WmiError 5))
              (WmiError 5) no_effects eq_refl) as (H1 & H2 & _).
  split; [exact H1 | exact H2].
Defined.

(** ** Master connectivity *)

Lemma effects_eta (s : effects) : {| logged := logged s; fired := fired s |} = s.
Proof. destruct s; reflexivity. Qed.

Lemma unpack2_Return {A} (l : list A) (a b : A) :
  Py.unpack2 l = Return (a, b) <-> l = [a; b].
Proof.
  destruct l as [|x [|y [|z l]]]; cbn; split; intros H; try discriminate;
    congruence.
Qed.

(** The set the loop builds: what it started from, and the hosts of the
    lines that show an established connection on the port. *)
Lemma remotes_loop_spec (port : Z) (lines : list string) :
  forall (acc ips : gset string),
    remotes_loop port lines acc = Return ips ->
    forall h, h ∈ ips <-> h ∈ acc ∨ ∃ line, In line lines ∧ established port h line.
Proof.
  induction lines as [|line rest IH]; intros acc ips Hloop h.
  - cbn in Hloop. injection Hloop as <-. split; [auto|].
    intros [H | (l & [] & _)]. exact H.
  - cbn [remotes_loop] in Hloop.
    destruct (Py.contains "ESTABLISHED" line) eqn:Hest; cbn [negb] in Hloop.
    2:{ rewrite (IH _ _ Hloop h). split; intros [H | (l & Hin & Hl)]; auto.
        - right. exists l. split; [right|]; assumption.
        - destruct Hin as [<- | Hin]; [|right; exists l; auto].
          destruct Hl as [Hc _]. congruence. }
    destruct (Py.item (Py.split_ws line) 2) as [endpoint|] eqn:Hitem; [|discriminate].
    destruct (Py.unpack2 (Py.rsplit1 endpoint ":")) as [[host0 rport]|] eqn:Hun;
      [|discriminate].
    apply unpack2_Return in Hun.
    destruct (Py.int_of_str rport) as [p|] eqn:Hint; [|discriminate].
    destruct (Z.eqb_spec p port) as [-> | Hne]; cbn [negb] in Hloop;
      rewrite (IH _ _ Hloop h).
    + rewrite elem_of_union, elem_of_singleton. split.
      * intros [[-> | H] | (l & Hin & Hl)]; auto.
        -- right. exists line. split; [left; reflexivity|].
           split; [assumption|]. exists endpoint, rport. auto.
        -- right. exists l. split; [right|]; assumption.
      * intros [H | (l & [<- | Hin] & Hl)]; auto.
        -- destruct Hl as (_ & ep & rp & Hi & Hr & _).
           left. left. congruence.
        -- right. exists l. auto.
    + split.
      * intros [H | (l & Hin & Hl)]; auto.
        right. exists l. split; [right|]; assumption.
      * intros [H | (l & [<- | Hin] & Hl)]; auto.
        -- destruct Hl as (_ & ep & rp & Hi & Hr & Hp).
           exfalso. apply Hne.
           assert (ep = endpoint) by congruence. subst ep.
           assert (rp = rport) by congruence. subst rp. congruence.
        -- right. exists l. auto.
Qed.

(** When [_win_remotes_on] returns, it has written nothing, and its set is
    the set of hosts with an established connection on the port in the
    listing. *)
Lemma win_remotes_on_Return (os : OS) (port : Z) (ips : gset string) (s s' : effects) :
  _win_remotes_on os port s = (Return ips, s') ->
  s' = s
  ∧ ∃ data, check_output os ["netstat"; "-n"; "-p"; "TCP"] = Return data
      ∧ forall h, h ∈ ips <-> ∃ line, In line (Py.split data lf) ∧ established port h line.
Proof.
  unfold _win_remotes_on. run_M.
  destruct (check_output os _) as [data|e] eqn:Hout.
  - intros [= Hloop <-]. split; [reflexivity|].
    exists data. split; [reflexivity|]. intros h.
    rewrite (remotes_loop_spec _ _ _ _ Hloop h).
    split; [intros [Hin | H]; [by apply not_elem_of_empty in Hin | exact H] | auto].
  - destruct (is_CalledProcessError e); discriminate.
Qed.

(** [_win_remotes_on] never fires an event. *)
Lemma win_remotes_on_fired (os : OS) (port : Z) (s : effects) :
  fired (snd (_win_remotes_on os port s)) = fired s.
Proof.
  unfold _win_remotes_on. run_M.
  destruct (check_output os _) as [data|e]; [reflexivity|].
  destruct (is_CalledProcessError e); reflexivity.
Qed.

(** The two runs the specification describes: with an established
    connection to 10.1.1.1 on port 4505 only, a caller that believes it is
    disconnected from 10.1.1.1 gets one [__master_connected], and a caller
    that believes it is connected to 10.2.2.2 gets one
    [__master_disconnected]. *)
Example remotes_of_netstat_sample :
  _win_remotes_on (host "" (Return netstat_sample) [] epoch_2020) 4505 no_effects
  = (Return {["10.1.1.1"]}, no_effects).
Proof. vm_compute. reflexivity. Qed.

Example master_disconnected_sample :
  master (host "" (Return netstat_sample) [] epoch_2020) (Some "10.2.2.2") true no_effects
  = (Return tt,
     {| logged := [];
        fired := [{| data_master := Some "10.2.2.2"; tag := "__master_disconnected" |}] |}).
Proof. vm_compute. reflexivity. Qed.

(** Without an identifier there is no address to find: a caller that
    believes it is connected gets [__master_disconnected] with [None]. *)
Example master_without_identifier :
  master (host "" (Return netstat_sample) [] epoch_2020) None true no_effects
  = (Return tt,
     {| logged := [];
        fired := [{| data_master := None; tag := "__master_disconnected" |}] |}).
Proof. vm_compute. reflexivity. Qed.

(** C8, as the specification has it: when the listing command cannot be
    started, [check_output] raises OSError, which the handler for
    CalledProcessError does not match; the error reaches the caller, but
    nothing is logged. *)
Lemma master_invocation_error_not_logged :
  master (host "" (Raise OSError) [] epoch_2020) (Some "10.1.1.1") true no_effects
  = (Raise OSError, {| logged := []; fired := [] |}).
Proof. vm_compute. reflexivity. Qed.

(** C8, amended. When the listing command fails with [e], [master] raises
    [e] to the caller without a result and without firing an event; the
    error "Failed netstat" is logged when [e] is a CalledProcessError (a
    non-zero exit) and nothing is logged otherwise. *)
Theorem master_netstat_failure (os : OS) (m : option string) (connected : bool)
    (port : Z) (e : exn) (s : effects) :
  publish_port os = Return port ->
  check_output os ["netstat"; "-n"; "-p"; "TCP"] = Raise e ->
  master os m connected s
  = (Raise e,
     {| logged := logged s
                  ++ (if is_CalledProcessError e then [(LogError, "Failed netstat")] else []);
        fired := fired s |}).
Proof.
  intros Hport Hout. unfold master, _win_remotes_on. run_M. rewrite Hport, Hout.
  destruct (is_CalledProcessError e); [reflexivity|].
  rewrite app_nil_r, effects_eta. reflexivity.
Qed.

Lemma master_netstat_failure_witness :
  master (host "" (Raise (CalledProcessError 1)) [] epoch_2020) (Some "10.1.1.1") true
    no_effects
  = (Raise (CalledProcessError 1),
     {| logged := [(LogError, "Failed netstat")]; fired := [] |}).
Proof.
  apply (master_netstat_failure
           (host "" (Raise (CalledProcessError 1)) [] epoch_2020) (Some "10.1.1.1") true
           4505 (CalledProcessError 1) no_effects); reflexivity.
Defined.

(** C10. A call of [master] adds at most one event to those fired before,
    and its tag is decided by [connected] alone: never both a
    [__master_disconnected] and a [__master_connected]. *)
Theorem master_at_most_one_event (os : OS) (m : option string) (connected : bool)
    (s : effects) :
  ∃ new,
    fired (snd (master os m connected s)) = (fired s ++ new)%list
    ∧ (length new <= 1)%nat
    ∧ forall ev, In ev new ->
        tag ev = if connected then "__master_disconnected" else "__master_connected".
Proof.
  unfold master. run_M.
  destruct (publish_port os) as [port|e].
  2:{ exists []. cbn. rewrite app_nil_r. split; [reflexivity|]. split; [lia|]. intros ? []. }
  pose proof (win_remotes_on_fired os port s) as Hfired.
  destruct (_win_remotes_on os port s) as [[ips|e] s1]; cbn [snd] in Hfired.
  2:{ exists []. cbn. rewrite app_nil_r. split; [assumption|]. split; [lia|]. intros ? []. }
  destruct connected, (ip_in (resolve_master os m) ips); cbn [negb snd fired];
    rewrite Hfired.
  - exists []. rewrite app_nil_r. split; [reflexivity|]. split; [cbn; lia|]. intros ? [].
  - eexists [_]. split; [reflexivity|]. split; [cbn; lia|].
    intros ev [<- | []]. reflexivity.
  - eexists [_]. split; [reflexivity|]. split; [cbn; lia|].
    intros ev [<- | []]. reflexivity.
  - exists []. rewrite app_nil_r. split; [reflexivity|]. split; [cbn; lia|]. intros ? [].
Qed.

(** ** Query adapters keep no state *)

Section Stateless.
Context {A B : Type}.





End Stateless.












(** * Further properties of the module *)

(** ** The connection listing *)

(** X1. When [_win_remotes_on] returns, a host is in its set exactly when
    some line of the listing mentions ESTABLISHED and has [host:port] as its
    third field, with the port read as an integer equal to the port asked
    for. *)
Theorem win_remotes_on_membership (os : OS) (port : Z) (ips : gset string)
    (s s' : effects) (h : string) :
  _win_remotes_on os port s = (Return ips, s') ->
  ∃ data,
    check_output os ["netstat"; "-n"; "-p"; "TCP"] = Return data
    ∧ (h ∈ ips <-> ∃ line, In line (Py.split data lf) ∧ established port h line).
Proof.
  intros Hret. destruct (win_remotes_on_Return _ _ _ _ _ Hret) as (_ & data & Hout & Hin).
  exists data. split; [exact Hout | apply Hin].
Qed.

Lemma win_remotes_on_membership_witness :
  ∃ data,
    check_output (host "" (Return netstat_sample) [] epoch_2020) ["netstat"; "-n"; "-p"; "TCP"]
    = Return data
    ∧ ("10.1.1.1" ∈ ({["10.1.1.1"]} ∪ ∅ : gset string)
       <-> ∃ line, In line (Py.split data lf) ∧ established 4505 "10.1.1.1" line).
Proof.
  apply (win_remotes_on_membership (host "" (Return netstat_sample) [] epoch_2020)
           4505 ({["10.1.1.1"]} ∪ ∅) no_effects no_effects "10.1.1.1").
  vm_compute. reflexivity.
Defined.

Lemma remotes_loop_well_formed (port : Z) (lines : list string) :
  forall acc : gset string,
    (∃ ips, remotes_loop port lines acc = Return ips) <-> Forall well_formed lines.
Proof.
  induction lines as [|line rest IH]; intros acc.
  - split; [constructor | intros _; exists acc; reflexivity].
  - cbn [remotes_loop]. rewrite List.Forall_cons_iff.
    destruct (Py.contains "ESTABLISHED" line) eqn:Hest; cbn [negb].
    2:{ rewrite IH. unfold well_formed. intuition. }
    destruct (Py.item (Py.split_ws line) 2) as [endpoint|e1] eqn:Hitem.
    2:{ split; [intros [ips Hips]; discriminate|].
        intros [[Hc | (ep & rh & rp & p & Hi & _)] _]; congruence. }
    destruct (Py.unpack2 (Py.rsplit1 endpoint ":")) as [[rh rp]|e2] eqn:Hun.
    2:{ split; [intros [ips Hips]; discriminate|].
        intros [[Hc | (ep & rh & rp & p & Hi & Hr & _)] _]; [congruence|].
        assert (ep = endpoint) by congruence. subst ep.
        rewrite Hr in Hun. discriminate. }
    apply unpack2_Return in Hun.
    destruct (Py.int_of_str rp) as [p|e3] eqn:Hint.
    2:{ split; [intros [ips Hips]; discriminate|].
        intros [[Hc | (ep & rh' & rp' & p & Hi & Hr & Hp)] _]; [congruence|].
        assert (ep = endpoint) by congruence. subst ep.
        assert (rp' = rp) by congruence. subst rp'. congruence. }
    assert (Hwf : well_formed line) by (right; exists endpoint, rh, rp, p; auto).
    destruct (negb (p =? port)); rewrite IH; intuition.
Qed.

Lemma win_remotes_on_well_formed (os : OS) (port : Z) (data : string) (s : effects) :
  check_output os ["netstat"; "-n"; "-p"; "TCP"] = Return data ->
  (∃ ips, _win_remotes_on os port s = (Return ips, s))
  <-> Forall well_formed (Py.split data lf).
Proof.
  intros Hout. rewrite <- (remotes_loop_well_formed port _ ∅).
  unfold _win_remotes_on. run_M. rewrite Hout.
  split; intros [ips Hips]; exists ips; congruence.
Qed.

(** X2. Given the text of the listing, [_win_remotes_on] returns a set (and
    writes nothing) exactly when every line that mentions ESTABLISHED has a
    third field of the form [host:port] with an integer port; one line that
    does not makes the whole call raise. *)
Theorem win_remotes_on_returns_iff (os : OS) (port : Z) (data : string) (s : effects) :
  check_output os ["netstat"; "-n"; "-p"; "TCP"] = Return data ->
  (∃ ips, _win_remotes_on os port s = (Return ips, s))
  <-> Forall well_formed (Py.split data lf).
Proof. apply win_remotes_on_well_formed. Qed.

Lemma win_remotes_on_returns_iff_witness :
  (∃ ips, _win_remotes_on (host "" (Return netstat_sample) [] epoch_2020) 4505 no_effects
          = (Return ips, no_effects))
  <-> Forall well_formed (Py.split netstat_sample lf).
Proof.
  apply (win_remotes_on_returns_iff (host "" (Return netstat_sample) [] epoch_2020)
           4505 netstat_sample no_effects).
  reflexivity.
Defined.

(** ** The connectivity check *)

(** X3. Whenever [master] raises, for whatever reason (a port setting that
    is no integer, a listing that fails or does not parse), it has fired no
    event. *)
Theorem master_raises_fires_nothing (os : OS) (m : option string) (connected : bool)
    (s : effects) (e : exn) :
  fst (master os m connected s) = Raise e ->
  fired (snd (master os m connected s)) = fired s.
Proof.
  unfold master. run_M.
  destruct (publish_port os) as [port|e0]; [|reflexivity].
  pose proof (win_remotes_on_fired os port s) as Hfired.
  destruct (_win_remotes_on os port s) as [[ips|e1] s1]; cbn [snd] in Hfired;
    [|intros _; exact Hfired].
  destruct connected, (ip_in (resolve_master os m) ips); cbn [negb fst];
    intros H; discriminate H || exact Hfired.
Qed.

Lemma master_raises_fires_nothing_witness :
  fired (snd (master (host "" (Return netstat_garbled) [] epoch_2020)
                (Some "10.1.1.1") false no_effects))
  = fired no_effects.
Proof.
  apply (master_raises_fires_nothing (host "" (Return netstat_garbled) [] epoch_2020)
           (Some "10.1.1.1") false no_effects IndexError).
  vm_compute. reflexivity.
Defined.

(** X4. On a host where the listing is read, the observation contradicts
    exactly one of the two beliefs: of the calls [master(m, True)] and
    [master(m, False)] one fires a single event and the other none. *)
Theorem master_contradicts_one_belief (os : OS) (m : option string) (port : Z)
    (ips : gset string) (s s' : effects) :
  publish_port os = Return port ->
  _win_remotes_on os port s = (Return ips, s') ->
  (fired (snd (master os m true s))
   = (fired s ++ [{| data_master := m; tag := "__master_disconnected" |}])%list
   ∧ fired (snd (master os m false s)) = fired s)
  ∨ (fired (snd (master os m true s)) = fired s
     ∧ fired (snd (master os m false s))
       = (fired s ++ [{| data_master := m; tag := "__master_connected" |}])%list).
Proof.
  intros Hport Hips.
  destruct (win_remotes_on_Return _ _ _ _ _ Hips) as [-> _].
  unfold master. run_M. rewrite Hport, Hips.
  destruct (ip_in (resolve_master os m) ips); cbn [negb snd fired]; auto.
Qed.

Lemma master_contradicts_one_belief_witness :
  let os := host "" (Return netstat_sample) [] epoch_2020 in
  (fired (snd (master os (Some "10.1.1.1") true no_effects))
   = ([] ++ [{| data_master := Some "10.1.1.1"; tag := "__master_disconnected" |}])%list
   ∧ fired (snd (master os (Some "10.1.1.1") false no_effects)) = [])
  ∨ (fired (snd (master os (Some "10.1.1.1") true no_effects)) = []
     ∧ fired (snd (master os (Some "10.1.1.1") false no_effects))
       = ([] ++ [{| data_master := Some "10.1.1.1"; tag := "__master_connected" |}])%list).
Proof.
  apply (master_contradicts_one_belief (host "" (Return netstat_sample) [] epoch_2020)
           (Some "10.1.1.1") 4505 ({["10.1.1.1"]} ∪ ∅) no_effects no_effects);
    vm_compute; reflexivity.
Defined.

(** ** Byte formatter, disk usage and memory *)

(** X6. From 1024 bytes on, the formatter prints a whole number that is at
    least 1, followed by the unit of the thresholds, and below 1 TB
    (1099511627776) that number never exceeds 1034. *)
Theorem byte_calc_magnitude (v : Z) :
  1024 <= v ->
  ∃ q, _byte_calc v = Py.str_of_int q ++ spec_unit v
       ∧ 1 <= q
       ∧ (v < 1099511627776 -> q <= 1034).
Proof.
  intros Hv. unfold _byte_calc, spec_unit.
  destruct (Z.ltb_spec v 1024); [lia|].
  destruct (Z.ltb_spec v 1038336).
  { exists (v / 1024). split; [reflexivity|]. split.
    - apply Z.div_le_lower_bound; lia.
    - intros _. enough (v / 1024 < 1035) by lia. apply Z.div_lt_upper_bound; lia. }
  destruct (Z.ltb_spec v 1073741824).
  { exists (v / 1038336). split; [reflexivity|]. split.
    - apply Z.div_le_lower_bound; lia.
    - intros _. enough (v / 1038336 < 1035) by lia. apply Z.div_lt_upper_bound; lia. }
  destruct (Z.ltb_spec v 1099511627776).
  { exists (v / 1073741824). split; [reflexivity|]. split.
    - apply Z.div_le_lower_bound; lia.
    - intros _. enough (v / 1073741824 < 1035) by lia. apply Z.div_lt_upper_bound; lia. }
  exists (v / 1099511627776). split; [reflexivity|]. split; [|lia].
  apply Z.div_le_lower_bound; lia.
Qed.

Lemma byte_calc_magnitude_witness :
  ∃ q, _byte_calc 5000000 = Py.str_of_int q ++ spec_unit 5000000
       ∧ 1 <= q
       ∧ (5000000 < 1099511627776 -> q <= 1034).
Proof. apply (byte_calc_magnitude 5000000). lia. Defined.

(** X7. The MB branch starts at 1038336 and divides by 1038336: every count
    from 1038336 up to 2076671 is shown as "1MB", among them the counts
    below 1048576 (1024 * 1024). *)
Theorem byte_calc_MB_threshold (v : Z) :
  1038336 <= v < 2076672 ->
  _byte_calc v = "1MB".
Proof.
  intros Hv. unfold _byte_calc.
  destruct (Z.ltb_spec v 1024); [lia|].
  destruct (Z.ltb_spec v 1038336); [lia|].
  destruct (Z.ltb_spec v 1073741824); [|lia].
  replace (v / 1038336) with 1; [reflexivity|].
  apply Z.div_unique with (r := v - 1038336); lia.
Qed.

Lemma byte_calc_MB_threshold_witness : _byte_calc 1040000 = "1MB".
Proof. apply (byte_calc_MB_threshold 1040000). lia. Defined.

(** X8. When the disk function reports success and counters with
    [0 <= free <= total < 2^63], the raw result has exactly those counters
    and [used = total - free]: the three values are non-negative and
    [used + free = total]. Nothing is logged. *)
Theorem diskusage_raw (os : OS) (p : pystr) (fn : pystr -> Z * Z * Z * Z)
    (r avail total_raw free_raw : Z) (s : effects) :
  path_unset (Some p) = false ->
  kernel32 os (match p with Uni _ => "GetDiskFreeSpaceExw" | Str _ => "GetDiskFreeSpaceExA" end)
  = Some fn ->
  fn p = (r, avail, total_raw, free_raw) ->
  r ≠ 0 ->
  0 <= free_raw <= total_raw ->
  total_raw < 2 ^ 63 ->
  ∃ used_val,
    diskusage os false (Some p) s
    = (Return {| total := PInt total_raw; used := PInt used_val; free := PInt free_raw |}, s)
    ∧ 0 <= used_val
    ∧ used_val + free_raw = total_raw.
Proof.
  intros Hp Hk Hfn Hr Hfree Htotal.
  exists (total_raw - free_raw). split; [|lia].
  assert (Hrun : diskusage os false (Some p) s
                 = (if r =? 0 then raise WindowsError
                    else mret {| total := PInt (c_ulonglong_value total_raw);
                                 used := PInt (c_ulonglong_value total_raw
                                               - c_longlong_value free_raw);
                                 free := PInt (c_longlong_value free_raw) |}) s).
  { unfold diskusage.
    destruct p as [[|a str]|[|a u]]; try discriminate Hp;
      cbv beta iota in Hk;
      cbv beta iota zeta delta [path_unset default from_option id];
      rewrite Hk, Hfn; reflexivity. }
  rewrite Hrun.
  destruct (Z.eqb_spec r 0); [contradiction|].
  unfold c_ulonglong_value, c_longlong_value.
  rewrite (Z.mod_small total_raw), (Z.mod_small free_raw) by lia.
  destruct (Z.ltb_spec free_raw (2 ^ 63)); [reflexivity | lia].
Qed.

Lemma diskusage_raw_witness :
  ∃ used_val,
    diskusage (host "" (Raise OSError) [] epoch_2020) false (Some (Str "d:/")) no_effects
    = (Return {| total := PInt 4096; used := PInt used_val; free := PInt 1000 |}, no_effects)
    ∧ 0 <= used_val
    ∧ used_val + 1000 = 4096.
Proof.
  apply (diskusage_raw (host "" (Raise OSError) [] epoch_2020) (Str "d:/")
           (fun _ => (1, 1000, 4096, 1000)) 1 1000 4096 1000 no_effects);
    try reflexivity; lia.
Defined.

(** X9. For a non-empty [unicode] path the function is looked up under the
    name GetDiskFreeSpaceExw (with a small w); when kernel32 exports no
    function of that name, [diskusage] raises AttributeError and reads no
    counters. *)
Theorem diskusage_unicode_path (os : OS) (h : bool) (c : N) (u : unicode) (s : effects) :
  kernel32 os "GetDiskFreeSpaceExw" = None ->
  diskusage os h (Some (Uni (c :: u))) s = (Raise AttributeError, s).
Proof.
  intros Hk. unfold diskusage.
  cbv beta iota zeta delta [path_unset default from_option id].
  rewrite Hk. reflexivity.
Qed.

Lemma diskusage_unicode_path_witness :
  diskusage (host "" (Raise OSError) [] epoch_2020) true (Some (Uni (99 :: Py.u ":/")%N))
    no_effects
  = (Raise AttributeError, no_effects).
Proof.
  apply (diskusage_unicode_path (host "" (Raise OSError) [] epoch_2020) true 99%N
           (Py.u ":/") no_effects).
  reflexivity.
Defined.

(** X11. [diskusage(human_readable=True)] is the raw call followed by the
    byte formatter on each of the three values: it fails exactly when the
    raw call fails, with the same exception. *)
Theorem diskusage_human_of_raw (os : OS) (p : option pystr) (s : effects) :
  diskusage os true p s
  = match diskusage os false p s with
    | (Return u, s') => (Return (human_usage u), s')
    | (Raise e, s') => (Raise e, s')
    end.
Proof.
  unfold diskusage.
  destruct (kernel32 os _) as [fn|]; [|reflexivity].
  destruct (fn _) as [[[r avail] total_raw] free_raw].
  destruct (r =? 0); reflexivity.
Qed.


(** ** Process entries *)

Lemma get_process_owner_returns (p : process) (s : effects) :
  ∃ o s',
    _get_process_owner p s = (Return o, s')
    ∧ (forall k, k ≠ "user" -> k ≠ "user_domain" -> o !! k = None)
    ∧ fired s' = fired s
    ∧ (logged s' = logged s
       ∨ logged s' = (logged s ++ [owner_warning (ProcessId p) (error_code (owner_try p))])%list).
Proof.
  unfold _get_process_owner.
  destruct (negb (Py.truthy_int (error_code (owner_try p)))
            && (Py.truthy_uni (user (owner_try p)) && Py.truthy_uni (domain (owner_try p)))).
  - eexists _, s. split; [reflexivity|]. split; [|auto].
    intros k Hu Hd. rewrite !lookup_insert_ne by done. by apply owner_try_keys.
  - destruct (((ProcessId p =? 0) || (ProcessId p =? 4))
              && bool_decide (error_code (owner_try p) = Some 2)).
    + eexists _, s. split; [reflexivity|]. split; [|auto].
      intros k Hu Hd. rewrite !lookup_insert_ne by done. by apply owner_try_keys.
    + eexists _, _. split; [reflexivity|]. split; [|cbn; auto].
      intros k Hu Hd. by apply owner_try_keys.
Qed.

Lemma get_process_info_spec (p : process) (s : effects) :
  ∃ info s',
    _get_process_info p s = (Return info, s')
    ∧ info !! "cmd" = Some (Py.encode_utf8 (default [] (CommandLine p)))
    ∧ info !! "name" = Some (Py.encode_utf8 (Name p))
    ∧ (forall k, is_Some (info !! k) -> k ∈ entry_keys)
    ∧ fired s' = fired s
    ∧ (logged s' = logged s
       ∨ logged s' = (logged s ++ [owner_warning (ProcessId p) (error_code (owner_try p))])%list).
Proof.
  destruct (get_process_owner_returns p s) as (o & s' & Hrun & Hkeys & Hfired & Hlog).
  eexists _, s'. unfold _get_process_info. run_M. rewrite Hrun.
  split; [reflexivity|]. split; [by simplify_map_eq|]. split; [by simplify_map_eq|].
  split; [|auto].
  intros k [v Hv]. unfold entry_keys.
  destruct (decide (k = "cmd")) as [->|Hc]; [set_solver|].
  destruct (decide (k = "name")) as [->|Hn]; [set_solver|].
  destruct (decide (k = "user")) as [->|Hu]; [set_solver|].
  destruct (decide (k = "user_domain")) as [->|Hd]; [set_solver|].
  rewrite !lookup_insert_ne in Hv by done. rewrite Hkeys in Hv by done. discriminate.
Qed.

(** X13. [_get_process_info] returns for every process handle, whatever the
    owner lookup does: the entry has [cmd] (empty when there is no command
    line) and [name], no key beside [cmd], [name], [user] and
    [user_domain], no event is fired, and at most one warning is logged. *)
Theorem get_process_info_returns (p : process) (s : effects) :
  ∃ info s',
    _get_process_info p s = (Return info, s')
    ∧ info !! "cmd" = Some (Py.encode_utf8 (default [] (CommandLine p)))
    ∧ info !! "name" = Some (Py.encode_utf8 (Name p))
    ∧ (forall k, is_Some (info !! k) -> k ∈ entry_keys)
    ∧ fired s' = fired s
    ∧ (logged s' = logged s
       ∨ logged s' = (logged s ++ [owner_warning (ProcessId p) (error_code (owner_try p))])%list).
Proof. apply get_process_info_spec. Qed.

(** X14. When the lookup returns a non-empty user and a non-empty domain
    with error code 0 (or none), the owner is exactly that user and that
    domain, UTF-8 encoded, and nothing is logged. *)
Theorem owner_of_success (p : process) (d u : unicode) (c : option Z) (s : effects) :
  GetOwner p = Return (Some d, c, Some u) ->
  c = None ∨ c = Some 0 ->
  d ≠ [] -> u ≠ [] ->
  _get_process_owner p s
  = (Return (<["user_domain" := Py.encode_utf8 d]> (<["user" := Py.encode_utf8 u]> ∅)), s).
Proof.
  intros Hget Hc Hd Hu. unfold _get_process_owner, owner_try. rewrite Hget.
  cbn [error_code user domain owner].
  replace (Py.truthy_int c) with false by (destruct Hc as [-> | ->]; reflexivity).
  destruct d as [|d0 d]; [done|]. destruct u as [|u0 u]; [done|].
  cbn [Py.truthy_uni negb andb default from_option id]. run_M.
  apply (f_equal (fun o : gmap string string => (Return o, s))).
  apply map_eq. intros k.
  destruct (decide (k = "user_domain")) as [->|Hkd]; [by simplify_map_eq|].
  destruct (decide (k = "user")) as [->|Hku]; by simplify_map_eq.
Qed.

Lemma owner_of_success_witness :
  _get_process_owner (proc_owned 1234) no_effects
  = (Return (<["user_domain" := "WORKGROUP"]> (<["user" := "bob"]> ∅)), no_effects).
Proof.
  apply (owner_of_success (proc_owned 1234) (Py.u "WORKGROUP") (Py.u "bob") (Some 0)
           no_effects); [reflexivity | right; reflexivity | discriminate | discriminate].
Defined.

Lemma owner_of_system_pid_witness :
  _get_process_owner (proc_denied 4) no_effects
  = (Return (<["user_domain" := "NT AUTHORITY"]> (<["user" := "SYSTEM"]> ∅)), no_effects).
Proof.
  apply (owner_of_system_pid (proc_denied 4) None None no_effects);
    [right; reflexivity | reflexivity].
Defined.

Lemma owner_of_other_pid_denied_witness :
  _get_process_owner (proc_denied 1234) no_effects
  = (Return ∅, {| logged := logged no_effects ++ [owner_warning 1234 (Some 2)];
                  fired := fired no_effects |}).
Proof.
  apply (owner_of_other_pid_denied (proc_denied 1234) None no_effects);
    [discriminate | discriminate | reflexivity].
Defined.

(** ** The process table *)

Lemma procs_loop_returns (ps : list process) :
  forall (acc : gmap Z (gmap string string)) (s : effects),
  ∃ info s',
    procs_loop ps acc s = (Return info, s')
    ∧ fired s' = fired s
    ∧ (forall pid, is_Some (info !! pid) <-> is_Some (acc !! pid) ∨ In pid (map ProcessId ps))
    ∧ (forall pid e, info !! pid = Some e ->
         acc !! pid = Some e ∨ (is_Some (e !! "cmd") ∧ is_Some (e !! "name")))
    ∧ (NoDup (map ProcessId ps) ->
       (forall pid, In pid (map ProcessId ps) -> acc !! pid = None) ->
       size info = (size acc + length ps)%nat).
Proof.
  induction ps as [|p ps IH]; intros acc s.
  - exists acc, s. split; [reflexivity|]. split; [reflexivity|].
    split; [intros pid; cbn; tauto|]. split; [auto|].
    intros _ _. cbn. lia.
  - destruct (get_process_info_spec p s) as (e0 & s0 & Hrun & Hcmd & Hname & _ & Hf0 & _).
    destruct (IH (<[ProcessId p := e0]> acc) s0) as (info & s' & Hloop & Hf & Hdom & Hent & Hsize).
    exists info, s'. cbn [procs_loop]. run_M. rewrite Hrun.
    split; [exact Hloop|]. split; [congruence|]. split; [|split].
    + intros pid. rewrite Hdom. cbn [map In].
      destruct (decide (ProcessId p = pid)) as [<-|Hne].
      * rewrite lookup_insert_eq. split; [auto | intros _; left; eauto].
      * rewrite lookup_insert_ne by done. tauto.
    + intros pid e He. destruct (Hent pid e He) as [Hacc | Hkeys]; [|auto].
      destruct (decide (ProcessId p = pid)) as [<-|Hne].
      * rewrite lookup_insert_eq in Hacc. injection Hacc as <-.
        right. rewrite Hcmd, Hname. eauto.
      * rewrite lookup_insert_ne in Hacc by done. auto.
    + intros Hnd Hfresh. cbn [map] in Hnd. apply NoDup_cons in Hnd as [Hnotin Hnd].
      rewrite Hsize; [| exact Hnd |].
      * rewrite map_size_insert_None by (apply Hfresh; left; reflexivity).
        cbn [length]. lia.
      * intros pid Hin. rewrite lookup_insert_ne.
        -- apply Hfresh. right. exact Hin.
        -- intros Heq. apply Hnotin. rewrite Heq. apply list_elem_of_In. exact Hin.
Qed.

(** X15. Given the process table, [procs()] returns for every table: its
    dict has exactly the PIDs of the table as keys, every entry has [cmd]
    and [name], also where the owner lookup fails, and no event is fired. *)
Theorem procs_info_returns (os : OS) (ps : list process) (s : effects) :
  win32_process os = Return ps ->
  ∃ info s',
    procs os false s = (Return (ProcInfo info), s')
    ∧ (forall pid, is_Some (info !! pid) <-> In pid (map ProcessId ps))
    ∧ (forall pid e, info !! pid = Some e -> is_Some (e !! "cmd") ∧ is_Some (e !! "name"))
    ∧ fired s' = fired s.
Proof.
  intros Hps.
  destruct (procs_loop_returns ps ∅ s) as (info & s' & Hloop & Hf & Hdom & Hent & _).
  exists info, s'. unfold procs. run_M. rewrite Hps, Hloop.
  split; [reflexivity|]. split; [|split; [|exact Hf]].
  - intros pid. rewrite Hdom, lookup_empty. split; [intros [[? [=]] | H]; exact H | auto].
  - intros pid e He. destruct (Hent pid e He) as [Hempty | H]; [|exact H].
    rewrite lookup_empty in Hempty. discriminate.
Qed.

Lemma procs_info_returns_witness :
  ∃ info s',
    procs (host "" (Raise OSError) process_table epoch_2020) false no_effects
    = (Return (ProcInfo info), s')
    ∧ (forall pid, is_Some (info !! pid) <-> In pid (map ProcessId process_table))
    ∧ (forall pid e, info !! pid = Some e -> is_Some (e !! "cmd") ∧ is_Some (e !! "name"))
    ∧ fired s' = fired no_effects.
Proof.
  apply (procs_info_returns (host "" (Raise OSError) process_table epoch_2020)
           process_table no_effects).
  reflexivity.
Defined.

(** X16. When the PIDs of the table are distinct, the count that
    [procs(count=True)] returns is the number of entries of the dict that
    [procs()] returns, and the count is taken without any owner lookup:
    nothing is logged. *)
Theorem procs_count_matches_info (os : OS) (ps : list process) (s : effects) :
  win32_process os = Return ps ->
  NoDup (map ProcessId ps) ->
  ∃ info s',
    procs os false s = (Return (ProcInfo info), s')
    ∧ procs os true s = (Return (ProcCount (Z.of_nat (size info))), s).
Proof.
  intros Hps Hnd.
  destruct (procs_loop_returns ps ∅ s) as (info & s' & Hloop & _ & _ & _ & Hsize).
  exists info, s'. unfold procs. run_M. rewrite Hps, Hloop.
  split; [reflexivity|].
  rewrite Hsize; [| exact Hnd | intros; apply lookup_empty].
  rewrite map_size_empty. reflexivity.
Qed.

Lemma procs_count_matches_info_witness :
  ∃ info s',
    procs (host "" (Raise OSError) process_table epoch_2020) false no_effects
    = (Return (ProcInfo info), s')
    ∧ procs (host "" (Raise OSError) process_table epoch_2020) true no_effects
      = (Return (ProcCount (Z.of_nat (size info))), no_effects).
Proof.
  apply (procs_count_matches_info (host "" (Raise OSError) process_table epoch_2020)
           process_table no_effects).
  - reflexivity.
  - apply (bool_decide_unpack _). vm_compute. exact I.
Defined.

(** ** What the adapters write *)

Section Silent.
Context {A B : Type}.

Lemma silent_lift (o : outcome A) : silent (lift o).
Proof. intros s. reflexivity. Qed.

Lemma silent_mret (a : A) : silent (mret a).
Proof. intros s. reflexivity. Qed.

Lemma silent_raise (e : exn) : silent (@raise A e).
Proof. intros s. reflexivity. Qed.

Lemma silent_bind (c : M A) (k : A -> M B) :
  silent c -> (forall a, silent (k a)) -> silent (c ≫= k).
Proof.
  intros Hc Hk s. unfold mbind, M_bind, bind. specialize (Hc s).
  destruct (c s) as [[a|e] s1]; cbn [snd] in Hc; subst s1; [apply Hk | reflexivity].
Qed.

Lemma quiet_of_silent (c : M A) : silent c -> quiet c.
Proof.
  intros Hc s. split; [rewrite Hc; reflexivity|].
  exists []. rewrite Hc, app_nil_r. split; [reflexivity | constructor].
Qed.

Lemma quiet_bind (c : M A) (k : A -> M B) :
  quiet c -> (forall a, quiet (k a)) -> quiet (c ≫= k).
Proof.
  intros Hc Hk s. unfold mbind, M_bind, bind.
  destruct (Hc s) as (Hf & new & Hl & Hw).
  destruct (c s) as [[a|e] s1]; cbn [snd] in *.
  - destruct (Hk a s1) as (Hf' & new' & Hl' & Hw').
    split; [congruence|]. exists (new ++ new')%list.
    split; [rewrite Hl', Hl, app_assoc; reflexivity | apply Forall_app; auto].
  - split; [exact Hf|]. exists new. auto.
Qed.
End Silent.

Ltac silent_step :=
  first
    [ apply silent_lift
    | apply silent_mret
    | apply silent_raise
    | apply silent_bind; [|intros ?] ].

Lemma silent_cpuload (os : OS) : silent (cpuload os).
Proof. unfold cpuload. repeat silent_step. Qed.

Lemma silent_diskusage (os : OS) (h : bool) (p : option pystr) : silent (diskusage os h p).
Proof. unfold diskusage. repeat case_match; silent_step. Qed.

Lemma silent_saltmem (os : OS) (h : bool) : silent (saltmem os h).
Proof. unfold saltmem. repeat silent_step. destruct h; silent_step. Qed.

Lemma silent_uptime (os : OS) (h : bool) : silent (uptime os h).
Proof.
  unfold uptime. do 3 (silent_step; [silent_step|]).
  destruct h; repeat silent_step.
Qed.

Lemma silent_procs_count (os : OS) : silent (procs os true).
Proof. unfold procs. repeat silent_step. Qed.

Lemma quiet_get_process_info (p : process) : quiet (_get_process_info p).
Proof.
  intros s.
  destruct (get_process_info_spec p s) as (info & s' & Hrun & _ & _ & _ & Hf & Hlog).
  rewrite Hrun. cbn [snd]. split; [exact Hf|].
  destruct Hlog as [Hl | Hl]; rewrite Hl.
  - exists []. rewrite app_nil_r. split; [reflexivity | constructor].
  - eexists. split; [reflexivity|]. repeat constructor.
Qed.

Lemma quiet_procs_loop (ps : list process) :
  forall info, quiet (procs_loop ps info).
Proof.
  induction ps as [|p ps IH]; intros info; cbn [procs_loop].
  - apply quiet_of_silent. silent_step.
  - apply quiet_bind; [apply quiet_get_process_info | intros e; apply IH].
Qed.

Lemma quiet_procs (os : OS) (count : bool) : quiet (procs os count).
Proof.
  destruct count; [apply quiet_of_silent, silent_procs_count|].
  unfold procs. apply quiet_bind; [apply quiet_of_silent; silent_step|]. intros ps.
  apply quiet_bind; [apply quiet_procs_loop|]. intros info.
  apply quiet_of_silent. silent_step.
Qed.

(** X17. No query adapter fires an event.  [cpuload], [diskusage],
    [saltmem], [uptime] and [procs(count=True)] write nothing at all,
    whether they return or raise; [procs()] only appends warnings to the
    log. *)
Theorem adapters_write_little (os : OS) (a : adapter) :
  quiet (call os a) ∧ (a = Procs false ∨ silent (call os a)).
Proof.
  assert (Hmap : forall (X : Type) (f : X -> value) (c : M X),
             silent c -> silent (f <$> c)).
  { intros X f c Hc. unfold fmap, M_fmap. apply silent_bind; [exact Hc|].
    intros x s. reflexivity. }
  destruct a as [|h p|[|]|h|h]; cbn [call].
  - split; [apply quiet_of_silent|right]; apply Hmap, silent_cpuload.
  - split; [apply quiet_of_silent|right]; apply Hmap, silent_diskusage.
  - split; [apply quiet_of_silent|right]; apply Hmap, silent_procs_count.
  - split; [|left; reflexivity]. unfold fmap, M_fmap.
    apply quiet_bind; [apply quiet_procs|]. intros r. apply quiet_of_silent.
    intros s. reflexivity.
  - split; [apply quiet_of_silent|right]; apply Hmap, silent_saltmem.
  - split; [apply quiet_of_silent|right]; apply Hmap, silent_uptime.
Qed.

(** ** Uptime *)

Lemma append_assoc_str (a b c : string) : (a ++ b) ++ c = a ++ b ++ c.
Proof.
  induction a as [|x a IH]; [reflexivity|].
  change (String x ((a ++ b) ++ c) = String x (a ++ b ++ c)).
  rewrite IH. reflexivity.
Qed.

(** X18. The rendering shows the elapsed seconds [t] as days (when
    positive, modulo 365, after a year count when above 365), hours,
    minutes and seconds, each of the last three in two digits, and these
    fields recombine to [t]: [t = days * 86400 + h * 3600 + m * 60 + s]
    with [h] below 24 and [m], [s] below 60. *)
Theorem uptime_human_fields (t : Z) :
  let days := t / 86400 in
  let h := t / 3600 mod 24 in
  let m := t / 60 mod 60 in
  let sec := t mod 60 in
  uptime_human t
  = (if 365 <? days then "Years: " ++ Py.str_of_int (days / 365) ++ " " else "")
    ++ (if 0 <? days then "Days: " ++ Py.str_of_int (days mod 365) ++ " " else "")
    ++ Py.pad2 h ++ ":" ++ Py.pad2 m ++ ":" ++ Py.pad2 sec
  ∧ t = days * 86400 + h * 3600 + m * 60 + sec
  ∧ 0 <= h < 24 ∧ 0 <= m < 60 ∧ 0 <= sec < 60
  ∧ String.length (Py.pad2 h ++ ":" ++ Py.pad2 m ++ ":" ++ Py.pad2 sec) = 8%nat.
Proof.
  intros days h m sec.
  assert (Hh : 0 <= h < 24) by (apply Z.mod_pos_bound; lia).
  assert (Hm : 0 <= m < 60) by (apply Z.mod_pos_bound; lia).
  assert (Hs : 0 <= sec < 60) by (apply Z.mod_pos_bound; lia).
  assert (E1 : t / 60 / 60 = t / 3600) by (rewrite Z.div_div by lia; reflexivity).
  assert (E2 : t / 60 / 60 / 24 = days) by (rewrite !Z.div_div by lia; reflexivity).
  split; [|split; [|repeat split; try lia]].
  - unfold uptime_human. rewrite E2, E1. fold h m sec.
    destruct (365 <? days), (0 <? days); cbn [append];
      rewrite ?append_assoc_str; reflexivity.
  - pose proof (Z.div_mod t 60 ltac:(lia)) as D1.
    pose proof (Z.div_mod (t / 60) 60 ltac:(lia)) as D2.
    pose proof (Z.div_mod (t / 60 / 60) 24 ltac:(lia)) as D3.
    rewrite E2, E1 in D3. rewrite E1 in D2. fold h in D3. fold m in D2. fold sec in D1.
    lia.
  - assert (Hlen : forall a b : string,
               String.length (a ++ b) = (String.length a + String.length b)%nat).
    { intros a b. induction a as [|x a IH]; [reflexivity|].
      change (S (String.length (a ++ b)) = S (String.length a + String.length b)).
      rewrite IH. reflexivity. }
    rewrite !Hlen, !pad2_length by lia. reflexivity.
Qed.

(** X19. When no line of the command output contains the marker
    "Statistics since", [uptime] raises ValueError, in either mode, and
    writes nothing. *)
Theorem uptime_marker_absent (os : OS) (outs : string) (h : bool) (s : effects) :
  cmd_run os "net stats srv" = Return outs ->
  Forall (fun l => Py.contains "Statistics since" l = false) (Py.split outs crlf) ->
  uptime os h s = (Raise ValueError, s).
Proof.
  intros Hout Hnone. unfold uptime. run_M. rewrite Hout.
  assert (Hline : find_stats_line outs = EmptyString).
  { unfold find_stats_line. generalize EmptyString at 2 3.
    induction Hnone as [|l ls Hl _ IH]; intros acc; cbn [fold_left]; [reflexivity|].
    rewrite Hl. apply IH. }
  rewrite Hline. reflexivity.
Qed.

Lemma uptime_marker_absent_witness :
  uptime (host wmic_columns (Raise OSError) [] epoch_2020) true no_effects
  = (Raise ValueError, no_effects).
Proof.
  apply (uptime_marker_absent (host wmic_columns (Raise OSError) [] epoch_2020)
           wmic_columns true no_effects).
  - reflexivity.
  - vm_compute. repeat constructor.
Defined.

(** X20. The scan of [uptime] does not stop at the first match: of several
    lines that contain the marker, the last one is the line whose timestamp
    is parsed. *)
Theorem find_stats_line_last (outs : string) (before after : list string) (line : string) :
  Py.split outs crlf = (before ++ line :: after)%list ->
  Py.contains "Statistics since" line = true ->
  Forall (fun l => Py.contains "Statistics since" l = false) after ->
  find_stats_line outs = line.
Proof.
  intros Hsplit Hline Hafter. unfold find_stats_line. rewrite Hsplit.
  apply fold_stats_line_last; assumption.
Qed.

Lemma find_stats_line_last_witness :
  find_stats_line net_stats_twice = "Statistics since 1/1/2020 00:00:00".
Proof.
  apply (find_stats_line_last net_stats_twice
           ["Statistics since 1/1/2019 00:00:00"] [EmptyString]).
  - vm_compute. reflexivity.
  - vm_compute. reflexivity.
  - repeat constructor.
Defined.

(** ** CPU load *)

Lemma split_without_separator (sep s : string) :
  String.index 0 sep s = None -> Py.split s sep = [s].
Proof.
  intros Hnone. unfold Py.split.
  enough (Py.split_aux sep 0 s = (s, [])) as -> by reflexivity.
  induction s as [|c s IH]; [reflexivity|].
  cbn [String.index] in Hnone. cbn [Py.split_aux].
  destruct (String.prefix sep (String c s)); [discriminate|].
  destruct (String.index 0 sep s); [discriminate|].
  rewrite IH by reflexivity. reflexivity.
Qed.

(** X21. When the first line of the command output does not contain the
    token LoadPercentage, [cpuload] raises ValueError. *)
Theorem cpuload_header_absent (os : OS) (out header : string) (s : effects) :
  cmd_run os "wmic cpu" = Return out ->
  Py.item (Py.split out crlf) 0 = Return header ->
  Py.contains "LoadPercentage" header = false ->
  cpuload os s = (Raise ValueError, s).
Proof.
  intros Hout Hhead Hnone. unfold cpuload. run_M. rewrite Hout, Hhead.
  unfold Py.contains in Hnone. unfold Py.index.
  destruct (String.index 0 "LoadPercentage" header); [discriminate | reflexivity].
Qed.

Lemma cpuload_header_absent_witness :
  cpuload (host net_stats_since (Raise OSError) [] epoch_2020) no_effects
  = (Raise ValueError, no_effects).
Proof.
  apply (cpuload_header_absent (host net_stats_since (Raise OSError) [] epoch_2020)
           net_stats_since "Server Statistics for \\HOST" no_effects);
    vm_compute; reflexivity.
Defined.

(** X22. When the command output has the token but no CRLF line break at
    all, there is no second line to read the value from, and [cpuload]
    raises IndexError. *)
Theorem cpuload_single_line (os : OS) (out : string) (s : effects) :
  cmd_run os "wmic cpu" = Return out ->
  Py.contains crlf out = false ->
  Py.contains "LoadPercentage" out = true ->
  cpuload os s = (Raise IndexError, s).
Proof.
  intros Hout Hone Htoken. unfold cpuload. run_M. rewrite Hout.
  unfold Py.contains in Hone, Htoken.
  rewrite split_without_separator
    by (destruct (String.index 0 crlf out); [discriminate | reflexivity]).
  cbn [Py.item nth_error]. unfold Py.index.
  destruct (String.index 0 "LoadPercentage" out); [reflexivity | discriminate].
Qed.

Lemma cpuload_single_line_witness :
  cpuload (host wmic_one_line (Raise OSError) [] epoch_2020) no_effects
  = (Raise IndexError, no_effects).
Proof.
  apply (cpuload_single_line (host wmic_one_line (Raise OSError) [] epoch_2020)
           wmic_one_line no_effects); vm_compute; reflexivity.
Defined.

(** ** More on the listing and on the rendering *)

(** X23. The set of remotes depends only on which lines that mention
    ESTABLISHED occur in the listing: two listings with the same such lines,
    in any order and any number of times, among any other lines, give the
    same set. *)
Theorem win_remotes_on_established_lines_only (os1 os2 : OS) (port : Z)
    (data1 data2 : string) (ips : gset string) (s : effects) :
  check_output os1 ["netstat"; "-n"; "-p"; "TCP"] = Return data1 ->
  check_output os2 ["netstat"; "-n"; "-p"; "TCP"] = Return data2 ->
  (forall line, Py.contains "ESTABLISHED" line = true ->
     In line (Py.split data1 lf) <-> In line (Py.split data2 lf)) ->
  _win_remotes_on os1 port s = (Return ips, s) ->
  _win_remotes_on os2 port s = (Return ips, s).
Proof.
  intros Hout1 Hout2 Hsame Hret1.
  assert (Hwf1 : Forall well_formed (Py.split data1 lf))
    by (apply (win_remotes_on_well_formed os1 port data1 s Hout1); eauto).
  assert (Hwf2 : Forall well_formed (Py.split data2 lf)).
  { rewrite List.Forall_forall in Hwf1 |- *. intros line Hin.
    destruct (Py.contains "ESTABLISHED" line) eqn:Hest; [|left; exact Hest].
    apply Hwf1, Hsame; assumption. }
  apply (win_remotes_on_well_formed os2 port data2 s Hout2) in Hwf2 as [ips2 Hret2].
  rewrite Hret2. f_equal. f_equal. apply set_eq. intros h.
  destruct (win_remotes_on_Return _ _ _ _ _ Hret1) as (_ & d1 & Hd1 & Hin1).
  destruct (win_remotes_on_Return _ _ _ _ _ Hret2) as (_ & d2 & Hd2 & Hin2).
  assert (d1 = data1) by congruence. assert (d2 = data2) by congruence. subst d1 d2.
  rewrite Hin1, Hin2.
  split; intros (line & Hin & Hest); exists line; (split; [|exact Hest]);
    apply (Hsame line (proj1 Hest)); exact Hin.
Qed.

Lemma win_remotes_on_established_lines_only_witness :
  _win_remotes_on (host "" (Return netstat_established_only) [] epoch_2020) 4505 no_effects
  = (Return ({["10.1.1.1"]} ∪ ∅), no_effects).
Proof.
  apply (win_remotes_on_established_lines_only
           (host "" (Return netstat_sample) [] epoch_2020)
           (host "" (Return netstat_established_only) [] epoch_2020)
           4505 netstat_sample netstat_established_only _ no_effects).
  - reflexivity.
  - reflexivity.
  - intros line Hest. vm_compute.
    split; intros H;
      repeat (destruct H as [<- | H]; [try discriminate Hest; tauto|]);
      destruct H.
  - vm_compute. reflexivity.
Defined.


(** ** The configured port *)

Lemma digits_value_uint_acc (d : Decimal.uint) :
  forall acc : positive,
    Py.digits_value (Z.pos acc) (NilEmpty.string_of_uint d)
    = Some (Z.pos (Pos.of_uint_acc d acc)).
Proof.
  induction d; intros acc; cbn [NilEmpty.string_of_uint Py.digits_value Pos.of_uint_acc];
    try reflexivity;
    match goal with
    | |- context [Py.is_digit ?c] => change (Py.is_digit c) with true; cbv iota
    end;
    match goal with
    | |- context [Z.of_nat (nat_of_ascii ?c)] =>
        let n := eval vm_compute in (Z.of_nat (nat_of_ascii c)) in
        change (Z.of_nat (nat_of_ascii c)) with n
    end;
    match goal with
    | |- Py.digits_value ?v _ = Some (Z.pos (Pos.of_uint_acc _ ?a)) =>
        replace v with (Z.pos a) by lia
    end; apply IHd.
Qed.

Lemma digits_value_uint (d : Decimal.uint) :
  Py.digits_value 0 (NilEmpty.string_of_uint d) = Some (Z.of_N (Pos.of_uint d)).
Proof.
  induction d; cbn [NilEmpty.string_of_uint Py.digits_value Pos.of_uint];
    try reflexivity;
    match goal with
    | |- context [Py.is_digit ?c] => change (Py.is_digit c) with true; cbv iota
    end;
    [exact IHd | ..];
    match goal with
    | |- Py.digits_value ?v _ = Some (Z.of_N (N.pos (Pos.of_uint_acc _ ?a))) =>
        change v with (Z.pos a); apply digits_value_uint_acc
    end.
Qed.

Lemma rstrip_uint (d : Decimal.uint) :
  Py.rstrip (NilEmpty.string_of_uint d) = NilEmpty.string_of_uint d.
Proof.
  induction d; cbn [NilEmpty.string_of_uint Py.rstrip]; try reflexivity;
    rewrite IHd;
    match goal with
    | |- context [Py.is_space ?c] => change (Py.is_space c) with false
    end;
    rewrite andb_false_r; reflexivity.
Qed.

Lemma int_of_str_pos (p : positive) :
  Py.int_of_str (NilEmpty.string_of_uint (Pos.to_uint p)) = Return (Z.pos p).
Proof.
  pose proof (DecimalPos.Unsigned.of_to p) as Hof.
  pose proof (digits_value_uint (Pos.to_uint p)) as Hval.
  pose proof (rstrip_uint (Pos.to_uint p)) as Hstrip.
  rewrite Hof in Hval. unfold Py.int_of_str, Py.strip.
  destruct (Pos.to_uint p) as [|d|d|d|d|d|d|d|d|d|d]; [discriminate Hof|..];
    cbn [NilEmpty.string_of_uint Py.lstrip] in *;
    match goal with
    | |- context [Py.is_space ?c] => change (Py.is_space c) with false; cbv iota
    end;
    rewrite Hstrip; cbv beta iota zeta;
    unfold Py.unsigned_value; cbn [Py.is_empty]; rewrite Hval; reflexivity.
Qed.

Lemma int_of_str_of_int (z : Z) : Py.int_of_str (Py.str_of_int z) = Return z.
Proof.
  unfold Py.str_of_int. destruct z as [|p|p]; [reflexivity| |].
  - cbn [Z.to_int NilZero.string_of_int NilZero.string_of_uint].
    pose proof (int_of_str_pos p) as H.
    destruct (Pos.to_uint p) eqn:E; try exact H.
    pose proof (DecimalPos.Unsigned.of_to p) as Hof. rewrite E in Hof. discriminate Hof.
  - cbn [Z.to_int NilZero.string_of_int].
    pose proof (DecimalPos.Unsigned.of_to p) as Hof.
    pose proof (digits_value_uint (Pos.to_uint p)) as Hval.
    rewrite Hof in Hval.
    assert (Hnil : NilZero.string_of_uint (Pos.to_uint p)
                   = NilEmpty.string_of_uint (Pos.to_uint p)).
    { destruct (Pos.to_uint p); [discriminate Hof | reflexivity..]. }
    rewrite Hnil. unfold Py.int_of_str, Py.strip.
    cbn [Py.lstrip]. change (Py.is_space "-") with false. cbv iota.
    cbn [Py.rstrip]. rewrite rstrip_uint.
    change (Py.is_space "-") with false. rewrite andb_false_r. cbv beta iota zeta.
    unfold Py.unsigned_value.
    destruct (NilEmpty.string_of_uint (Pos.to_uint p)); [discriminate Hval|].
    cbn [Py.is_empty]. rewrite Hval. reflexivity.
Qed.

(** X25. A port configured as an int, or as the decimal text of an int, is
    the port [master] looks for: the text is read back to the same number. *)
Theorem publish_port_configured (os : OS) (p : Z) :
  config_get os "publish_port" = PInt p
  ∨ config_get os "publish_port" = PStr (Py.str_of_int p) ->
  publish_port os = Return p.
Proof.
  intros [Hcfg | Hcfg]; unfold publish_port; rewrite Hcfg; cbn [not_empty_str Py.int_of_val].
  - reflexivity.
  - pose proof (int_of_str_of_int p) as H.
    destruct (Py.str_of_int p); [discriminate H | exact H].
Qed.

Lemma publish_port_configured_witness :
  publish_port (host_configured (PStr "4506") (Return netstat_sample)) = Return 4506.
Proof.
  apply (publish_port_configured (host_configured (PStr "4506") (Return netstat_sample)) 4506).
  right. reflexivity.
Defined.

(** ** The connectivity check, from its inputs *)

Lemma configured_port_publish_port (os : OS) (port : Z) :
  configured_port os port -> publish_port os = Return port.
Proof.
  intros [[Hcfg ->] | [Hcfg | Hcfg]]; unfold publish_port; rewrite Hcfg;
    cbn [not_empty_str Py.int_of_val]; try reflexivity.
  pose proof (int_of_str_of_int port) as H.
  destruct (Py.str_of_int port); [discriminate H | exact H].
Qed.

(** What [master] computes before it decides, on a listing that parses:
    the set of remotes, in which the resolved address lies exactly when the
    master is present in the sense of the specification. *)
Lemma master_observation (os : OS) (m : option string) (port : Z) (data : string)
    (s : effects) :
  check_output os ["netstat"; "-n"; "-p"; "TCP"] = Return data ->
  Forall well_formed (Py.split data lf) ->
  ∃ ips,
    _win_remotes_on os port s = (Return ips, s)
    ∧ (ip_in (resolve_master os m) ips = true <-> master_present os m port data).
Proof.
  intros Hout Hwf.
  apply (win_remotes_on_well_formed os port data s Hout) in Hwf as [ips Hips].
  exists ips. split; [exact Hips|].
  destruct (win_remotes_on_Return _ _ _ _ _ Hips) as (_ & d & Hd & Hin).
  assert (d = data) by congruence. subst d.
  unfold master_present, master_address, remote_on, resolve_master.
  destruct m as [name|].
  - destruct (host_to_ip os name) as [ip|] eqn:Hres; cbn [ip_in].
    + rewrite bool_decide_eq_true, Hin. split.
      * intros Hline. exists ip. split; [exists name; auto | exact Hline].
      * intros (ip' & (name' & Hm & Hres') & Hline).
        assert (name' = name) by congruence. subst name'.
        assert (ip' = ip) by congruence. subst ip'. exact Hline.
    + split; [discriminate|].
      intros (ip' & (name' & Hm & Hres') & _).
      assert (name' = name) by congruence. subst name'. congruence.
  - cbn [ip_in]. split; [discriminate|].
    intros (ip' & (name' & Hm & _) & _). discriminate Hm.
Qed.

(** C1. On a host whose listing parses, with the port of the configuration:
    if [connected] is true and the address the identifier resolves to
    (through [host_to_ip]) is not among the remotes of the established
    connections on that port, [master] fires exactly one
    [__master_disconnected] with [{master: identifier}]; if [connected] is
    false and the address is among them, exactly one [__master_connected]
    with the same data; in the two other cases it fires nothing.  It
    returns and logs nothing in all four. *)
Theorem master_fires_on_contradiction (os : OS) (m : option string) (connected : bool)
    (port : Z) (data : string) (s : effects) :
  configured_port os port ->
  check_output os ["netstat"; "-n"; "-p"; "TCP"] = Return data ->
  Forall well_formed (Py.split data lf) ->
  (connected = true -> ¬ master_present os m port data ->
   master os m connected s
   = (Return tt, {| logged := logged s; fired := fired s ++ [disconnected_event m] |}))
  ∧ (connected = false -> master_present os m port data ->
     master os m connected s
     = (Return tt, {| logged := logged s; fired := fired s ++ [connected_event m] |}))
  ∧ ((connected = true ∧ master_present os m port data)
     ∨ (connected = false ∧ ¬ master_present os m port data) ->
     master os m connected s = (Return tt, s)).
Proof.
  intros Hcfg Hout Hwf.
  apply configured_port_publish_port in Hcfg.
  destruct (master_observation os m port data s Hout Hwf) as (ips & Hips & Hpresent).
  assert (Hrun : master os m connected s
                 = (if connected
                    then if negb (ip_in (resolve_master os m) ips)
                         then fire_event m "__master_disconnected" else mret tt
                    else if ip_in (resolve_master os m) ips
                         then fire_event m "__master_connected" else mret tt) s).
  { unfold master. run_M. rewrite Hcfg, Hips. reflexivity. }
  rewrite Hrun. clear Hrun.
  destruct (ip_in (resolve_master os m) ips) eqn:Hin; cbn [negb].
  - assert (Hp : master_present os m port data) by (apply Hpresent; reflexivity).
    split; [intros _ Hn; contradiction|]. split.
    + intros ->. intros _. reflexivity.
    + intros [[-> _] | [_ Hn]]; [reflexivity | contradiction].
  - assert (Hn : ¬ master_present os m port data)
      by (intros Hp; apply Hpresent in Hp; discriminate Hp).
    split; [intros -> _; reflexivity|]. split.
    + intros _ Hp. contradiction.
    + intros [[_ Hp] | [-> _]]; [contradiction | reflexivity].
Qed.

Lemma master_fires_on_contradiction_witness :
  master (host_named "salt" "10.1.1.1" (Return netstat_sample)) (Some "salt") false no_effects
  = (Return tt, {| logged := []; fired := [connected_event (Some "salt")] |}).
Proof.
  apply (proj1 (proj2 (master_fires_on_contradiction
                         (host_named "salt" "10.1.1.1" (Return netstat_sample))
                         (Some "salt") false 4505 netstat_sample no_effects
                         (or_introl (conj eq_refl eq_refl)) eq_refl
                         (proj1 (win_remotes_on_well_formed
                                   (host_named "salt" "10.1.1.1" (Return netstat_sample))
                                   4505 netstat_sample no_effects eq_refl)
                                (ex_intro _ ({["10.1.1.1"]} ∪ ∅) eq_refl))))).
  - reflexivity.
  - exists "10.1.1.1". split.
    + exists "salt". split; reflexivity.
    + exists "  TCP    10.1.1.26:3389         10.1.1.1:4505          ESTABLISHED".
      split.
      * vm_compute. do 4 right. left. reflexivity.
      * split; [vm_compute; reflexivity|].
        exists "10.1.1.1:4505", "4505". repeat split; vm_compute; reflexivity.
Defined.

(** X5. When no identifier is given, or [host_to_ip] returns [None] for it,
    the address counts as absent whatever the listing shows, even if the
    identifier itself is the text of a connected address: a caller that
    believes it is connected gets [__master_disconnected], a caller that
    believes it is disconnected gets nothing. *)
Theorem master_unresolved (os : OS) (m : option string) (connected : bool) (port : Z)
    (data : string) (s : effects) :
  m = None ∨ (∃ name, m = Some name ∧ host_to_ip os name = None) ->
  configured_port os port ->
  check_output os ["netstat"; "-n"; "-p"; "TCP"] = Return data ->
  Forall well_formed (Py.split data lf) ->
  master os m connected s
  = (Return tt,
     {| logged := logged s;
        fired := fired s ++ (if connected then [disconnected_event m] else []) |}).
Proof.
  intros Hm Hcfg Hout Hwf.
  apply configured_port_publish_port in Hcfg.
  apply (win_remotes_on_well_formed os port data s Hout) in Hwf as [ips Hips].
  assert (Hres : resolve_master os m = None).
  { unfold resolve_master. destruct Hm as [-> | (name & -> & ->)]; reflexivity. }
  unfold master. run_M. rewrite Hcfg, Hips, Hres. cbn [ip_in negb].
  destruct connected; rewrite ?app_nil_r, ?effects_eta; reflexivity.
Qed.

Lemma master_unresolved_witness :
  master (host_named "salt" "10.1.1.1" (Return netstat_sample)) (Some "10.1.1.1") true no_effects
  = (Return tt, {| logged := []; fired := [disconnected_event (Some "10.1.1.1")] |}).
Proof.
  apply (master_unresolved (host_named "salt" "10.1.1.1" (Return netstat_sample))
           (Some "10.1.1.1") true 4505 netstat_sample no_effects).
  - right. exists "10.1.1.1". split; reflexivity.
  - left. split; reflexivity.
  - reflexivity.
  - apply (win_remotes_on_well_formed
             (host_named "salt" "10.1.1.1" (Return netstat_sample))
             4505 netstat_sample no_effects eq_refl).
    exists ({["10.1.1.1"]} ∪ ∅). vm_compute. reflexivity.
Defined.

(** X10. The paths [None], [''] and [u''] are replaced by ['c:/']: on each
    of them [diskusage] asks the ANSI function about ['c:/'] and behaves
    exactly as on that path. *)
Theorem diskusage_default_path (os : OS) (h : bool) (p : option pystr) (s : effects) :
  p = None ∨ p = Some (Str EmptyString) ∨ p = Some (Uni []) ->
  diskusage os h p s = diskusage os h (Some (Str "c:/")) s
  ∧ (kernel32 os "GetDiskFreeSpaceExA" = None ->
     diskusage os h p s = (Raise AttributeError, s)).
Proof.
  intros [-> | [-> | ->]]; (split; [reflexivity|]);
    intros Hk; unfold diskusage;
    cbv beta iota zeta delta [path_unset default from_option id];
    rewrite Hk; reflexivity.
Qed.

Lemma diskusage_default_path_witness :
  let c_drive := (Return {| total := PInt 4096; used := PInt 3096; free := PInt 1000 |},
                  no_effects) in
  diskusage host_drive_c false None no_effects = c_drive
  ∧ diskusage host_drive_c false (Some (Str EmptyString)) no_effects = c_drive
  ∧ diskusage host_drive_c false (Some (Uni [])) no_effects = c_drive
  ∧ diskusage host_drive_c false (Some (Str "d:/")) no_effects = (Raise WindowsError, no_effects).
Proof.
  cbv zeta. split; [|split; [|split; [|vm_compute; reflexivity]]].
  - etransitivity.
    + apply (proj1 (diskusage_default_path host_drive_c false None no_effects
                      (or_introl eq_refl))).
    + vm_compute. reflexivity.
  - etransitivity.
    + apply (proj1 (diskusage_default_path host_drive_c false (Some (Str EmptyString))
                      no_effects (or_intror (or_introl eq_refl)))).
    + vm_compute. reflexivity.
  - etransitivity.
    + apply (proj1 (diskusage_default_path host_drive_c false (Some (Uni []))
                      no_effects (or_intror (or_intror eq_refl)))).
    + vm_compute. reflexivity.
Defined.

(** ** Query adapters and the module state *)







